(** * PyInstaller hooks for gallery-dl: a shallow embedding

    The repository holds two scripts:

    - [pyinstaller-hooks/rthook-gallery-dl.py], a runtime hook that preloads
      the extractor whose file name ("2ch.py") is not a Python identifier;
    - [pyinstaller-hooks/hook-gallery_dl.py], a build-time hook that declares
      the hidden imports and the data files of gallery-dl.

    Both are straight-line glue around calls into the Python standard library
    and PyInstaller.  The scripts are embedded in a state-and-exception monad
    over a model of the host: the files and directories of the machine with
    their permissions and modification times, the bytecode caches, the
    packaged-data store of the bundle and [sys.modules] for the runtime hook;
    the installed packages and files of the build machine for the build-time
    hook.

    The host operations follow CPython 3.11 on POSIX ([posixpath], [os],
    [tempfile], [pkgutil], [importlib]) and the hook utilities of PyInstaller
    ([collect_submodules], [collect_data_files]).  What the model leaves out:

    - paths are compared as strings: ".", "..", repeated or trailing
      separators and symbolic links are not resolved;
    - the code of a module is reduced to whether its compilation and its
      execution raise; what it does to the rest of the process (the modules
      it imports, the files it touches) is not followed, and neither are the
      imports [pkgutil.get_data] makes to find the package: [sys_modules]
      holds what the script itself assigns;
    - a [__pycache__] directory and the cache files in it are kept apart from
      the other directories and files; [sys.pycache_prefix], the optimisation
      level, a setting of [--check-hash-based-pycs] other than its default
      and namespace packages are left out. *)

From Stdlib Require Import String Ascii List Arith NArith Lia Bool.
From Stdlib Require Strings.Byte.
From stdpp Require Import base option list strings gmap sets sorting.

Local Open Scope string_scope.

(** ** Strings and bytes *)

Module Str.

(** [s.endswith(suf)] *)
Fixpoint endswith (s suf : string) : bool :=
  String.eqb s suf ||
  match s with
  | EmptyString => false
  | String _ s' => endswith s' suf
  end.

(** [s.startswith(pre)] *)
Fixpoint startswith (s pre : string) : bool :=
  match pre, s with
  | EmptyString, _ => true
  | String a pre', String b s' => Ascii.eqb a b && startswith s' pre'
  | String _ _, EmptyString => false
  end.

(** [s.rstrip(c)] for a single character [c] *)
Fixpoint rstrip (c : ascii) (s : string) : string :=
  match s with
  | EmptyString => EmptyString
  | String a s' =>
      match rstrip c s' with
      | EmptyString => if Ascii.eqb a c then EmptyString else String a EmptyString
      | r => String a r
      end
  end.

(** [s == c * len(s)] *)
Fixpoint all_char (c : ascii) (s : string) : bool :=
  match s with
  | EmptyString => true
  | String a s' => Ascii.eqb a c && all_char c s'
  end.

(** [(s[:i], s[i:])] for [i = s.rfind(c) + 1] *)
Fixpoint rpartition (c : ascii) (s : string) : string * string :=
  match s with
  | EmptyString => (EmptyString, EmptyString)
  | String a s' =>
      match rpartition c s' with
      | (EmptyString, t) =>
          if Ascii.eqb a c then (String a EmptyString, t)
          else (EmptyString, String a t)
      | (h, t) => (String a h, t)
      end
  end.

(** [c in s] *)
Fixpoint contains (c : ascii) (s : string) : bool :=
  match s with
  | EmptyString => false
  | String a s' => Ascii.eqb a c || contains c s'
  end.

(** [s.split(c)] *)
Fixpoint split (c : ascii) (s : string) : list string :=
  match s with
  | EmptyString => [EmptyString]
  | String a s' =>
      if Ascii.eqb a c then EmptyString :: split c s'
      else match split c s' with
           | [] => [String a EmptyString]
           | h :: t => String a h :: t
           end
  end.

(** [c.join(parts)] *)
Fixpoint join (c : string) (parts : list string) : string :=
  match parts with
  | [] => EmptyString
  | [p] => p
  | p :: ps => p ++ c ++ join c ps
  end.

Definition le (a b : string) : Prop := String.leb a b = true.

#[export] Instance le_dec a b : Decision (le a b).
Proof. unfold le. apply _. Defined.

(** [sorted(l)] on a list of strings *)
Definition sorted (l : list string) : list string := merge_sort le l.

Definition is_empty (s : string) : bool :=
  match s with EmptyString => true | _ => false end.

(** [s[:-1]] *)
Fixpoint chop (s : string) : string :=
  match s with
  | EmptyString => EmptyString
  | String _ EmptyString => EmptyString
  | String a s' => String a (chop s')
  end.

End Str.

(** ** [posixpath] *)

Module posixpath.

Definition sep : ascii := "/"%char.

(** [posixpath.join(a, b)] *)
Definition join (a b : string) : string :=
  if Str.startswith b "/" then b
  else if Str.is_empty a || Str.endswith a "/" then a ++ b
  else a ++ "/" ++ b.

(** [posixpath.split(p)] *)
Definition split (p : string) : string * string :=
  let '(head, tail) := Str.rpartition sep p in
  if negb (Str.is_empty head) && negb (Str.all_char sep head)
  then (Str.rstrip sep head, tail)
  else (head, tail).

(** [posixpath.dirname(p)] *)
Definition dirname (p : string) : string := fst (split p).

Definition isabs (p : string) : bool := Str.startswith p "/".

(** A path is in normal form when a trailing separator only occurs in a
    path made of separators (the root), as [os.path.abspath] leaves it. *)
Definition normal (p : string) : Prop :=
  Str.endswith p "/" = true → Str.all_char "/" p = true.

(** [normal] as a boolean. *)
Definition normalb (p : string) : bool :=
  implb (Str.endswith p "/") (Str.all_char "/" p).

(** An absolute path in normal form, as [os.path.abspath] returns it. *)
Definition absolute : Type := { p : string | isabs p && normalb p = true }.

End posixpath.

(** ** The host: exceptions, module objects, the machine *)

Module Py.

Abbreviation bytes := (list Byte.byte).

(** The exceptions the modelled calls can raise. *)
Inductive exn : Type :=
  | FileNotFoundError (path : string)
  | FileExistsError (path : string)
  | NotADirectoryError (path : string)
  | IsADirectoryError (path : string)
  | PermissionError (path : string)
  | NoSpaceError (path : string)       (* OSError(ENOSPC) *)
  | RecursionError
  | AttributeError (msg : string)
  | AssertionError
  | BodyError (msg : string).          (* raised while a module is loaded:
                                          SyntaxError, ImportError, ... *)

Definition is_FileExistsError (e : exn) : bool :=
  match e with FileExistsError _ => true | _ => false end.

(** [isinstance(e, OSError)] *)
Definition is_OSError (e : exn) : bool :=
  match e with
  | FileNotFoundError _ | FileExistsError _ | NotADirectoryError _
  | IsADirectoryError _ | PermissionError _ | NoSpaceError _ => true
  | _ => false
  end.

Inductive result (A : Type) : Type :=
  | Ok (a : A)
  | Raise (e : exn).
Arguments Ok {A} a.
Arguments Raise {A} e.

(** The file loaders of [importlib.machinery], in the order of
    [_get_supported_file_loaders()]. *)
Inductive loader_class : Type :=
  | ExtensionFileLoader
  | SourceFileLoader
  | SourcelessFileLoader.

Record Loader : Type := {
  loader_kind : loader_class;
  loader_name : string;
  loader_path : string;
}.

Record ModuleSpec : Type := {
  spec_name : string;
  spec_loader : option Loader;
  spec_origin : string;
}.

(** A module object.  [mod_code] is the content that was executed into the
    module: the source text the code object was compiled from, or the
    content of the file for a module without source; [None] for a module
    that was created and not yet executed. *)
Record Module : Type := {
  mod_name : string;
  mod_file : string;
  mod_loader : option Loader;
  mod_code : option bytes;
}.

(** The header of a bytecode cache file, as [_classify_pyc] reads it: the
    flags say how the file is checked against the source. *)
Inductive pyc_header : Type :=
  | Timestamp (mtime size : N)   (* flags 0: the source's mtime and size, 32 bits each *)
  | CheckedHash (hash : N)       (* flags 0b11: the hash of the source *)
  | UncheckedHash (hash : N)     (* flags 0b01: never checked *)
  | BadHeader.                   (* bad magic number, truncated, unknown flags *)

(** A bytecode cache file.  [pyc_body] is what [marshal.loads] makes of the
    rest of the file: the code object compiled from a source text, or an
    exception for a body that is no code object. *)
Record pyc : Type := {
  pyc_head : pyc_header;
  pyc_body : result bytes;
  pyc_len : nat;                 (* the size of the file *)
}.

(** The interpreter: whether a source text compiles ([None]: it does,
    [Some e]: [compile] raises [e], a [SyntaxError] for instance); what
    happens when the code of a content is executed in a fresh module by a
    loader of a given class ([None]: it runs to completion); the extension
    suffixes of the platform ([_imp.extension_suffixes()]); [_imp.source_hash]
    and the size of the cache file written for a source text. *)
Class Interp : Type := {
  py_compile : bytes → option exn;
  py_run : loader_class → bytes → option exn;
  extension_suffixes : list string;
  source_hash : bytes → N;
  pyc_size : bytes → nat;
}.

(** Loading a file content as a module: a source text is compiled and
    executed, any other content is executed as it is. *)
Definition py_exec `{Interp} (k : loader_class) (content : bytes) : option exn :=
  match k with
  | SourceFileLoader =>
      match py_compile content with
      | Some e => Some e
      | None => py_run SourceFileLoader content
      end
  | _ => py_run k content
  end.

(** The machine and the process.  Paths are compared as strings.

    [tmp] is the directory [tempfile.gettempdir()] settles on: [tempfile]
    passes every candidate through [os.path.abspath], so it is an absolute
    path without a trailing separator.

    [readonly] holds the paths this process may not write to: a directory
    in it refuses new entries, a file in it cannot be opened for writing.
    For a path that is not there yet it tells what the process gets when it
    creates the path (the umask decides that, and nothing in the scripts
    changes a permission). *)
Record World : Type := {
  packaged_data : string → string → result (option bytes);
                                   (* outcome of pkgutil.get_data(package, resource) *)
  tmp : posixpath.absolute;        (* tempfile.gettempdir() *)
  cwd : string;                    (* os.getcwd() *)
  files : gmap string bytes;       (* regular files and their content *)
  mtime : gmap string N;           (* their st_mtime, in seconds *)
  dirs : gset string;              (* directories *)
  pycache : gmap string (gmap string pyc);
                                   (* the __pycache__ directories by path, and
                                      the cache files in each by name *)
  readonly : gset string;
  disk_free : nat;                 (* bytes left on the device *)
  clock : N;                       (* time.time(), in seconds *)
  dont_write_bytecode : bool;      (* sys.dont_write_bytecode *)
  recursion_room : nat;            (* nested calls the interpreter still allows
                                      below a call made by the script *)
  sys_modules : gmap string Module;
}.

Definition tempdir (w : World) : string := proj1_sig (tmp w).

(** The file system after an operation. *)
Definition with_fs (w : World) (f : gmap string bytes) (mt : gmap string N)
    (d : gset string) (pc : gmap string (gmap string pyc)) (n : nat) : World :=
  {| packaged_data := packaged_data w; tmp := tmp w; cwd := cwd w;
     files := f; mtime := mt; dirs := d; pycache := pc;
     readonly := readonly w; disk_free := n; clock := clock w;
     dont_write_bytecode := dont_write_bytecode w;
     recursion_room := recursion_room w; sys_modules := sys_modules w |}.

Definition with_modules (w : World) (m : gmap string Module) : World :=
  {| packaged_data := packaged_data w; tmp := tmp w; cwd := cwd w;
     files := files w; mtime := mtime w; dirs := dirs w; pycache := pycache w;
     readonly := readonly w; disk_free := disk_free w; clock := clock w;
     dont_write_bytecode := dont_write_bytecode w;
     recursion_room := recursion_room w; sys_modules := m |}.


(** *** Computations: state and exceptions *)

Definition M (A : Type) : Type := World → result A * World.

Definition ret {A} (a : A) : M A := fun w => (Ok a, w).
Definition raise {A} (e : exn) : M A := fun w => (Raise e, w).
Definition bind {A B} (c : M A) (k : A → M B) : M B := fun w =>
  match c w with
  | (Ok a, w') => k a w'
  | (Raise e, w') => (Raise e, w')
  end.
(** [try: c  except <handles>: h e] *)
Definition try_except {A} (c : M A) (handles : exn → bool) (h : exn → M A) : M A := fun w =>
  match c w with
  | (Ok a, w') => (Ok a, w')
  | (Raise e, w') => if handles e then h e w' else (Raise e, w')
  end.

Declare Scope py_scope.
Delimit Scope py_scope with py.
Notation "x <- c ;; k" := (bind c (fun x => k))
  (at level 100, c at next level, right associativity) : py_scope.
Notation "c ;; k" := (bind c (fun _ => k))
  (at level 100, right associativity) : py_scope.
Local Open Scope py_scope.

(** A computation keeps an observation [f] of the host when no run of it,
    normal or not, changes [f]. *)
Definition keeps {A B} (f : World → B) (c : M A) : Prop :=
  ∀ w r w', c w = (r, w') → f w' = f w.

(** An observation that does not look at the file system. *)
Definition fs_blind {B} (f : World → B) : Prop :=
  ∀ w fl mt d pc n, f (with_fs w fl mt d pc n) = f w.

(** *** [os.path] and [os] *)

Definition isdir (w : World) (p : string) : bool := bool_decide (p ∈ dirs w).
Definition isfile (w : World) (p : string) : bool := bool_decide (is_Some (files w !! p)).
Definition path_exists (w : World) (p : string) : bool := isdir w p || isfile w p.

(** The directory an entry is created in; the empty dirname is the current
    directory. *)
Definition parent_isdir (w : World) (p : string) : bool :=
  let d := posixpath.dirname p in Str.is_empty d || isdir w d.

(** [_path_join(a, b)] of [importlib._bootstrap_external] *)
Definition _path_join (a b : string) : string :=
  match Str.is_empty a, Str.is_empty b with
  | true, true => ""
  | true, false => Str.rstrip "/" b
  | false, true => Str.rstrip "/" a
  | false, false => Str.rstrip "/" a ++ "/" ++ Str.rstrip "/" b
  end.

(** The [__pycache__] directory of a directory. *)
Definition pycache_of (dir : string) : string := _path_join dir "__pycache__".

(** [os.mkdir(p)].  The new directory is empty: there is no [__pycache__]
    in it. *)
Definition os_mkdir (p : string) : M unit := fun w =>
  if Str.is_empty p then (Raise (FileNotFoundError p), w)
  else if path_exists w p then (Raise (FileExistsError p), w)
  else if isfile w (posixpath.dirname p) then (Raise (NotADirectoryError p), w)
  else if negb (parent_isdir w p) then (Raise (FileNotFoundError p), w)
  else if bool_decide (posixpath.dirname p ∈ readonly w) then (Raise (PermissionError p), w)
  else (Ok tt, with_fs w (files w) (mtime w) ({[p]} ∪ dirs w)
                 (delete (pycache_of p) (pycache w)) (disk_free w)).

(** The tail of [os.makedirs]: [mkdir] and, with [exist_ok=True], accept an
    [OSError] when the directory is there. *)
Definition mkdir_exist_ok (name : string) : M unit :=
  try_except (os_mkdir name) is_OSError
    (fun e w => if negb (isdir w name) then (Raise e, w) else (Ok tt, w)).

(** [os.makedirs(name, exist_ok=True)].  The function calls itself on the
    head of the path; [depth] is the number of nested calls the interpreter
    allows, and a call beyond it is a [RecursionError]. *)
Fixpoint makedirs_rec (depth : nat) (name : string) : M unit :=
  match depth with
  | O => raise RecursionError
  | S depth' =>
      let '(head, tail) := posixpath.split name in
      let '(head, tail) :=
        if Str.is_empty tail then posixpath.split head else (head, tail) in
      fun w =>
        if negb (Str.is_empty head) && negb (Str.is_empty tail)
           && negb (path_exists w head)
        then
          (try_except (makedirs_rec depth' head) is_FileExistsError (fun _ => ret tt) ;;
           if String.eqb tail "." then ret tt else mkdir_exist_ok name) w
        else mkdir_exist_ok name w
  end.

(** The call the script makes runs; the calls below it have
    [recursion_room] left.  A trailing separator of [name] is taken as it is
    written; the script passes none. *)
Definition os_makedirs (name : string) : M unit := fun w =>
  makedirs_rec (S (recursion_room w)) name w.

(** [with open(dst, 'wb') as f: f.write(data)].  A file that is there is
    truncated, which takes the permission to write to it; a new file takes
    the permission to write to its directory.  Either way the modification
    time is now. *)
Definition open_wb (dst : string) : M unit := fun w =>
  if Str.is_empty dst then (Raise (FileNotFoundError dst), w)
  else if isdir w dst || Str.endswith dst "/" then (Raise (IsADirectoryError dst), w)
  else if isfile w (posixpath.dirname dst) then (Raise (NotADirectoryError dst), w)
  else if negb (parent_isdir w dst) then (Raise (FileNotFoundError dst), w)
  else match files w !! dst with
       | Some old =>
           if bool_decide (dst ∈ readonly w)
           then (Raise (PermissionError dst), w)
           else (Ok tt, with_fs w (<[dst := []]> (files w)) (<[dst := clock w]> (mtime w))
                          (dirs w) (pycache w) (disk_free w + length old))
       | None =>
           if bool_decide (posixpath.dirname dst ∈ readonly w)
           then (Raise (PermissionError dst), w)
           else (Ok tt, with_fs w (<[dst := []]> (files w)) (<[dst := clock w]> (mtime w))
                          (dirs w) (pycache w) (disk_free w))
       end.

Definition file_write (dst : string) (data : bytes) : M unit := fun w =>
  if Nat.leb (length data) (disk_free w)
  then (Ok tt, with_fs w (<[dst := data]> (files w)) (<[dst := clock w]> (mtime w))
                 (dirs w) (pycache w) (disk_free w - length data))
  else (Raise (NoSpaceError dst),
        with_fs w (<[dst := take (disk_free w) data]> (files w))
          (<[dst := clock w]> (mtime w)) (dirs w) (pycache w) 0).

Definition write_file (dst : string) (data : bytes) : M unit :=
  open_wb dst ;; file_write dst data.

Definition read_file (p : string) : M bytes := fun w =>
  match files w !! p with
  | Some d => (Ok d, w)
  | None => if isdir w p then (Raise (IsADirectoryError p), w)
            else (Raise (FileNotFoundError p), w)
  end.

(** *** [tempfile] and [pkgutil] *)

(** [tempfile.gettempdir()]: the directory [tempfile] settled on, which it
    found to be a directory; otherwise no usable temporary directory is
    found ([FileNotFoundError]). *)
Definition tempfile_gettempdir : M string := fun w =>
  if isdir w (tempdir w) then (Ok (tempdir w), w)
  else (Raise (FileNotFoundError (tempdir w)), w).

(** [pkgutil.get_data(package, resource)]: the bytes of the resource, [None]
    when the package or its loader cannot serve it, or the exception of the
    loader. *)
Definition pkgutil_get_data (package resource : string) : M (option bytes) := fun w =>
  (packaged_data w package resource, w).

(** *** [importlib.util] *)

Section Importlib.
Context `{Interp}.

Definition SOURCE_SUFFIXES : list string := [".py"].
Definition BYTECODE_SUFFIXES : list string := [".pyc"].

Definition _get_supported_file_loaders : list (loader_class * list string) :=
  [ (ExtensionFileLoader, extension_suffixes);
    (SourceFileLoader, SOURCE_SUFFIXES);
    (SourcelessFileLoader, BYTECODE_SUFFIXES) ].

(** [location.endswith(tuple(suffixes))] *)
Definition endswith_any (location : string) (suffixes : list string) : bool :=
  existsb (Str.endswith location) suffixes.

(** The [for ... else] that picks the loader class. *)
Fixpoint pick_loader (location : string) (ls : list (loader_class * list string))
  : option loader_class :=
  match ls with
  | [] => None
  | (k, suffixes) :: ls' =>
      if endswith_any location suffixes then Some k else pick_loader location ls'
  end.

(** The location a specification records: [location] made absolute. *)
Definition abs_location (w : World) (location : string) : string :=
  if posixpath.isabs location then location else _path_join (cwd w) location.

(** [importlib.util.spec_from_file_location(name, location)] *)
Definition spec_from_file_location (name location : string) : M (option ModuleSpec) :=
  fun w =>
    let location := abs_location w location in
    match pick_loader location _get_supported_file_loaders with
    | None => (Ok None, w)
    | Some k =>
        (Ok (Some {| spec_name := name;
                     spec_loader := Some {| loader_kind := k; loader_name := name;
                                            loader_path := location |};
                     spec_origin := location |}), w)
    end.

(** Load the content of a file as a module. *)
Definition load_content (k : loader_class) (path : string) : M bytes :=
  data <- read_file path ;;
  match py_exec k data with
  | Some e => raise e
  | None => ret data
  end.

(** **** The bytecode cache of the source loader *)

(** [_path_split(path)]: around the last separator. *)
Definition _path_split (path : string) : string * string :=
  match Str.rpartition "/" path with
  | (EmptyString, tail) => ("", tail)
  | (head, tail) => (Str.chop head, tail)
  end.

(** [sys.implementation.cache_tag] *)
Definition cache_tag : string := "cpython-311".

(** The file name [cache_from_source] gives the cache of a source file
    named [tail]. *)
Definition cache_name (tail : string) : string :=
  match Str.rpartition "." tail with
  | (EmptyString, rest) => rest ++ cache_tag ++ ".pyc"
  | (head, rest) =>
      let base := Str.chop head in
      (if Str.is_empty base then rest else base) ++ "." ++ cache_tag ++ ".pyc"
  end.

(** [cache_from_source(path)] is the file [cache_file path] in the
    directory [cache_dir path]. *)
Definition cache_dir (path : string) : string := pycache_of (fst (_path_split path)).
Definition cache_file (path : string) : string := cache_name (snd (_path_split path)).

(** The cache file of a source file, when there is one. *)
Definition cached (path : string) (w : World) : option pyc :=
  pycache w !! cache_dir path ≫= (.!! cache_file path).

(** [_pack_uint32] keeps the low 32 bits. *)
Definition uint32 (n : N) : N := N.land n 0xFFFFFFFF.

(** [_validate_timestamp_pyc] and [_validate_hash_pyc], for a source file
    with modification time [mt] that holds [src]. *)
Definition pyc_valid (c : pyc) (mt : N) (src : bytes) : bool :=
  match pyc_head c with
  | Timestamp m s => N.eqb m (uint32 mt) && N.eqb s (uint32 (N.of_nat (length src)))
  | CheckedHash h => N.eqb h (source_hash src)
  | UncheckedHash _ => true
  | BadHeader => false
  end.

(** The code the source loader takes from the cache instead of compiling the
    source: the body of the cache file, when its header is valid. *)
Definition cache_hit (path : string) (src : bytes) (mt : N) (w : World)
  : option (result bytes) :=
  match cached path w with
  | Some c => if pyc_valid c mt src then Some (pyc_body c) else None
  | None => None
  end.

(** The cache file written for a source: hash-based when the file it
    replaces was, else with the time stamp and the size of the source. *)
Definition fresh_pyc (old : option pyc) (mt : N) (src : bytes) : pyc :=
  {| pyc_head := match option_map pyc_head old with
                 | Some (CheckedHash _) => CheckedHash (source_hash src)
                 | Some (UncheckedHash _) => UncheckedHash (source_hash src)
                 | _ => Timestamp (uint32 mt) (uint32 (N.of_nat (length src)))
                 end;
     pyc_body := Ok src;
     pyc_len := pyc_size src |}.

(** [_cache_bytecode]: [set_data] makes the [__pycache__] directory when it
    is missing and [_write_atomic] writes a temporary file and renames it.
    Every failure is swallowed: the cache is just not written. *)
Definition cache_bytecode (path : string) (c : pyc) (w : World) : World :=
  let dir := cache_dir path in
  if dont_write_bytecode w then w
  else
    let made :=
      match pycache w !! dir with
      | Some entries => Some entries
      | None =>
          if negb (path_exists w dir) && parent_isdir w dir
             && negb (bool_decide (posixpath.dirname dir ∈ readonly w))
          then Some ∅ else None
      end in
    match made with
    | None => w
    | Some entries =>
        if negb (bool_decide (dir ∈ readonly w)) && Nat.leb (pyc_len c) (disk_free w)
        then
          let old := from_option pyc_len 0 (entries !! cache_file path) in
          with_fs w (files w) (mtime w) (dirs w)
            (<[dir := <[cache_file path := c]> entries]> (pycache w))
            (disk_free w - pyc_len c + old)
        else with_fs w (files w) (mtime w) (dirs w) (<[dir := entries]> (pycache w))
               (disk_free w)
    end.

(** [SourceFileLoader.get_code]: the code object of the module, named by
    the source text it was compiled from.  A cache file with a valid header
    is used without a look at the source; otherwise the source is compiled
    and the cache is written. *)
Definition get_code (path : string) : M bytes := fun w =>
  match files w !! path with
  | None => read_file path w
  | Some src =>
      match cache_hit path src (default 0%N (mtime w !! path)) w with
      | Some (Ok code) => (Ok code, w)
      | Some (Raise e) => (Raise e, w)
      | None =>
          match py_compile src with
          | Some e => (Raise e, w)
          | None =>
              (Ok src,
               cache_bytecode path
                 (fresh_pyc (cached path w) (default 0%N (mtime w !! path)) src) w)
          end
      end
  end.

(** [importlib.util.module_from_spec(spec)].  On [None] the attribute
    access [spec.loader] fails.  An extension module is created by its
    loader, which loads the shared object. *)
Definition module_from_spec (spec : option ModuleSpec) : M Module :=
  match spec with
  | None => raise (AttributeError "'NoneType' object has no attribute 'loader'")
  | Some s =>
      let fresh := {| mod_name := spec_name s; mod_file := spec_origin s;
                      mod_loader := spec_loader s; mod_code := None |} in
      match spec_loader s with
      | Some {| loader_kind := ExtensionFileLoader; loader_path := path |} =>
          data <- load_content ExtensionFileLoader path ;;
          ret {| mod_name := spec_name s; mod_file := spec_origin s;
                 mod_loader := spec_loader s; mod_code := Some data |}
      | _ => ret fresh
      end
  end.

(** [loader.exec_module(module)] *)
Definition exec_module (l : Loader) (module : Module) : M Module :=
  match loader_kind l with
  | ExtensionFileLoader => ret module
  | SourceFileLoader =>
      code <- get_code (loader_path l) ;;
      match py_run SourceFileLoader code with
      | Some e => raise e
      | None =>
          ret {| mod_name := mod_name module; mod_file := mod_file module;
                 mod_loader := mod_loader module; mod_code := Some code |}
      end
  | SourcelessFileLoader =>
      data <- load_content SourcelessFileLoader (loader_path l) ;;
      ret {| mod_name := mod_name module; mod_file := mod_file module;
             mod_loader := mod_loader module; mod_code := Some data |}
  end.

End Importlib.

(** [sys.modules[name] = module] *)
Definition sys_modules_set (name : string) (module : Module) : M unit := fun w =>
  (Ok tt, with_modules w (<[name := module]> (sys_modules w))).

End Py.

(** ** [rthook-gallery-dl.py] *)

Module Shim.
Import Py.
Local Open Scope py_scope.

Section Shim.
Context `{Interp}.

(** [def _preload_extractor(modname: str, relpath: str)] *)
Definition _preload_extractor (modname relpath : string) : M unit :=
  data <- pkgutil_get_data "gallery_dl.extractor" relpath ;;
  match data with
  | None | Some [] => ret tt             (* if not data: return *)
  | Some data =>
      base <- tempfile_gettempdir ;;
      let tmpdir := posixpath.join base "gallery_dl_pyinst_extractors" in
      os_makedirs tmpdir ;;
      let dst := posixpath.join tmpdir relpath in
      os_makedirs (posixpath.dirname dst) ;;
      write_file dst data ;;
      spec <- spec_from_file_location modname dst ;;
      module <- module_from_spec spec ;;
      match spec with
      | None => raise (AttributeError "'NoneType' object has no attribute 'loader'")
      | Some s =>
          match spec_loader s with
          | None => raise AssertionError  (* assert spec.loader is not None *)
          | Some loader =>
              module <- exec_module loader module ;;
              sys_modules_set modname module
          end
      end
  end.

(** The statement at the top level of the script. *)
Definition rthook : M unit :=
  _preload_extractor "gallery_dl.extractor.2ch" "2ch.py".

(** The path the shim writes the resource to. *)
Definition dst_of (w : World) (relpath : string) : string :=
  posixpath.join (posixpath.join (tempdir w) "gallery_dl_pyinst_extractors") relpath.

(** *** The steps of the shim, as the specification names them *)

(** Step 2, materialize: the temporary directory and the file. *)
Definition materialize (relpath : string) (data : bytes) : M string :=
  base <- tempfile_gettempdir ;;
  let tmpdir := posixpath.join base "gallery_dl_pyinst_extractors" in
  os_makedirs tmpdir ;;
  let dst := posixpath.join tmpdir relpath in
  os_makedirs (posixpath.dirname dst) ;;
  write_file dst data ;;
  ret dst.

(** Step 3, load: the module specification and the executed module. *)
Definition load (modname dst : string) : M Module :=
  spec <- spec_from_file_location modname dst ;;
  module <- module_from_spec spec ;;
  match spec with
  | None => raise (AttributeError "'NoneType' object has no attribute 'loader'")
  | Some s =>
      match spec_loader s with
      | None => raise AssertionError
      | Some loader => exec_module loader module
      end
  end.

(** Step 4, register. *)
Definition register (modname : string) (module : Module) : M unit :=
  sys_modules_set modname module.

(** Steps 2 to 4 in sequence. *)
Definition preload_found (modname relpath : string) (data : bytes) : M unit :=
  dst <- materialize relpath data ;;
  module <- load modname dst ;;
  register modname module.

End Shim.
End Shim.

(** ** PyInstaller's hook utilities

    [PyInstaller.utils.hooks] is not part of the repository; the two
    utilities the hook calls are modelled after PyInstaller 5 and 6. *)

Module PyInstaller.
Import Py.

(** What the import system reports below a directory of the module search
    path: the names [pkgutil.iter_modules] yields, whether each is a
    package, and whether importing it succeeds. *)
#[warnings="-register-all"]
Inductive entry : Type :=
  | Mod (name : string) (imports : bool)
  | Pkg (name : string) (imports : bool) (contents : list entry).

Definition entry_name (e : entry) : string :=
  match e with Mod n _ | Pkg n _ _ => n end.

Definition entry_imports (e : entry) : bool :=
  match e with Mod _ b | Pkg _ b _ => b end.

(** A regular file of the installation: the directory it is in, as path
    components below the installation directory, its name and content. *)
Record InstalledFile : Type := {
  file_dir : list string;
  file_name : string;
  file_content : bytes;
}.

(** The build machine: where packages are installed and what is there. *)
Record Site : Type := {
  site_dir : string;
  toplevel : list entry;
  installed : list InstalledFile;
}.

Definition find_entry (name : string) (es : list entry) : option entry :=
  find (fun e => String.eqb (entry_name e) name) es.

(** [importlib.util.find_spec(name)] for the dotted name [parts]: the
    parents are imported on the way, the last component is only located. *)
Fixpoint find_spec (es : list entry) (parts : list string) : option entry :=
  match parts with
  | [] => None
  | [n] => find_entry n es
  | n :: rest =>
      match find_entry n es with
      | Some (Pkg _ true sub) => find_spec sub rest
      | _ => None
      end
  end.

Definition locate (s : Site) (name : string) : option entry :=
  find_spec (toplevel s) (Str.split "." name).

(** [is_package(name)]: any failure of [find_spec] counts as "no". *)
Definition is_package (s : Site) (name : string) : bool :=
  match locate s name with Some (Pkg _ _ _) => true | _ => false end.

(** [can_import_module(name)] *)
Definition can_import_module (s : Site) (name : string) : bool :=
  match locate s name with Some e => entry_imports e | None => false end.

(** The scan of one entry found under the dotted name [name]: a module is
    listed as it is; a package is imported, listed and its contents are
    scanned; a package whose import fails is skipped with its contents
    ([on_error="warn once"]). *)
Fixpoint scan (name : string) (e : entry) : list string :=
  match e with
  | Mod _ _ => [name]
  | Pkg _ false _ => []
  | Pkg _ true contents =>
      name :: flat_map (fun c => scan (name ++ "." ++ entry_name c) c) contents
  end.

(** The names [collect_submodules(package)] returns: nothing for a name
    that cannot be located, the name itself for an importable module, the
    sorted scan for a package. *)
Definition submodules (s : Site) (package : string) : list string :=
  match locate s package with
  | Some (Pkg n b c) => Str.sorted (scan package (Pkg n b c))
  | Some (Mod _ true) => [package]
  | _ => []
  end.

(** [collect_submodules(package)]: no outcome of the scan is an exception. *)
Definition collect_submodules (s : Site) (package : string) : result (list string) :=
  Ok (submodules s package).

(** [Under name e x]: [x] is the dotted name of the entry [e], found under
    the name [name], or of a module or package below it that is reached
    through packages whose import succeeds. *)
Inductive Under : string → entry → string → Prop :=
  | under_mod name n b : Under name (Mod n b) name
  | under_pkg name n cs : Under name (Pkg n true cs) name
  | under_sub name n cs c x :
      c ∈ cs → Under (name ++ "." ++ entry_name c) c x → Under name (Pkg n true cs) x.

(** A dotted name is inside a package when it is the package or continues
    its name after a dot. *)
Definition inside (package x : string) : Prop :=
  x = package ∨ Str.startswith x (package ++ ".") = true.

(** What is installed, told apart from how PyInstaller walks it.
    [Found es x e]: [x] is the dotted name of the entry [e] in the tree of
    entries [es], and every package above [e] imports: this is what the
    import system finds under the name [x]. *)
Inductive Found : list entry → string → entry → Prop :=
  | found_top es e : e ∈ es → Found es (entry_name e) e
  | found_sub es x n cs e :
      Found es x (Pkg n true cs) → e ∈ cs → Found es (x ++ "." ++ entry_name e) e.

Definition is_pkg (e : entry) : bool :=
  match e with Pkg _ _ _ => true | Mod _ _ => false end.

(** The submodules present under [package]: the names inside the package
    that the import system finds.  A module is present whether or not its
    own import would succeed; a package counts only when its import
    succeeds, and so does [package] itself. *)
Definition Present (s : Site) (package x : string) : Prop :=
  inside package x ∧
  ∃ e, Found (toplevel s) x e ∧
       (x = package ∨ is_pkg e = true → entry_imports e = true).

(** The names of a directory listing: no dot in a name, no name twice. *)
Fixpoint wf_entry (e : entry) : bool :=
  negb (Str.contains "." (entry_name e)) &&
  match e with
  | Mod _ _ => true
  | Pkg _ _ cs => bool_decide (NoDup (map entry_name cs)) && forallb wf_entry cs
  end.

Definition wf_site (s : Site) : bool :=
  bool_decide (NoDup (map entry_name (toplevel s))) && forallb wf_entry (toplevel s).

Section DataFiles.
Context `{Interp}.

(** [compat.ALL_SUFFIXES] *)
Definition ALL_SUFFIXES : list string :=
  SOURCE_SUFFIXES ++ BYTECODE_SUFFIXES ++ extension_suffixes.

(** The suffixes behind the exclude patterns ['**/*' + s]: every module
    suffix, or with [include_py_files] the extension suffixes only. *)
Definition excluded_suffixes (include_py_files : bool) : list string :=
  if include_py_files then extension_suffixes else ALL_SUFFIXES.

(** The exclude pattern ['**/__pycache__/*.pyc'], below the package
    directory [pkg]: bytecode caches are never collected. *)
Definition in_pycache (pkg : list string) (f : InstalledFile) : bool :=
  match reverse (drop (length pkg) (file_dir f)) with
  | d :: _ => String.eqb d "__pycache__" && Str.endswith (file_name f) ".pyc"
  | [] => false
  end.

Definition below (pkg : list string) (f : InstalledFile) : bool :=
  bool_decide (pkg `prefix_of` file_dir f).

Definition excluded (include_py_files : bool) (pkg : list string) (f : InstalledFile) : bool :=
  endswith_any (file_name f) (excluded_suffixes include_py_files) || in_pycache pkg f.

(** The files [collect_data_files] keeps: ['**/*'] minus the excludes. *)
Definition collected (include_py_files : bool) (pkg : list string) (f : InstalledFile) : bool :=
  below pkg f && negb (excluded include_py_files pkg f).

(** [str(s)] for the source [s] *)
Definition source_of (s : Site) (f : InstalledFile) : string :=
  site_dir s ++ "/" ++ Str.join "/" (file_dir f ++ [file_name f]).

(** [str(s.parent.relative_to(pkg_base))] *)
Definition dest_of (f : InstalledFile) : string := Str.join "/" (file_dir f).

(** [collect_data_files(package, include_py_files)]: nothing, with a
    warning, for a name that is not a package; otherwise a pair for each
    regular file the patterns keep (directories are not sources). *)
Definition collect_data_files (s : Site) (package : string) (include_py_files : bool)
  : result (list (string * string)) :=
  if negb (is_package s package) then Ok []
  else
    let pkg := Str.split "." package in
    Ok (map (fun f => (source_of s f, dest_of f))
            (filter (fun f => collected include_py_files pkg f = true) (installed s))).

(** Where the bundle holds a collected pair: the file keeps its name,
    in the destination directory. *)
Definition bundled_at (d : string * string) : string :=
  posixpath.join (snd d) (snd (posixpath.split (fst d))).

(** The path of an installed file below the installation directory. *)
Definition relative_path (f : InstalledFile) : string :=
  Str.join "/" (file_dir f ++ [file_name f]).

(** A path component: not empty, no separator in it. *)
Definition component (c : string) : Prop := c ≠ "" ∧ Str.contains "/" c = false.

Definition well_formed (f : InstalledFile) : Prop :=
  Forall component (file_dir f) ∧ component (file_name f).

End DataFiles.
End PyInstaller.

(** ** [hook-gallery_dl.py] *)

Module Hook.
Import Py.

(** [from PyInstaller.utils.hooks import collect_submodules, collect_data_files] *)
Class HookUtils : Type := {
  collect_submodules : string → result (list string);
  collect_data_files : string → bool → result (list (string * string));
}.

(** The two names the hook binds. *)
Record Manifest : Type := {
  hiddenimports : list string;
  datas : list (string * string);
}.

Definition bind_r {A B} (r : result A) (k : A → result B) : result B :=
  match r with Ok a => k a | Raise e => Raise e end.

Section Hook.
Context `{HookUtils}.

(** The evaluation of the hook module. *)
Definition hook : result Manifest :=
  bind_r (collect_submodules "gallery_dl.extractor") (fun a =>
  bind_r (collect_submodules "gallery_dl.downloader") (fun b =>
  bind_r (collect_submodules "gallery_dl.postprocessor") (fun c =>
  bind_r (collect_submodules "gallery_dl.output") (fun d =>
  let hiddenimports := (a ++ b ++ c ++ d)%list in
  bind_r (collect_data_files "gallery_dl" true) (fun datas =>
  Ok {| hiddenimports := hiddenimports; datas := datas |}))))).

(** The plugin packages, in the order the hook scans them. *)
Definition plugin_packages : list string :=
  [ "gallery_dl.extractor"; "gallery_dl.downloader";
    "gallery_dl.postprocessor"; "gallery_dl.output" ].

End Hook.

(** The hook utilities of PyInstaller on a build machine. *)
Definition pyinstaller `{Interp} (s : PyInstaller.Site) : HookUtils :=
  {| collect_submodules := PyInstaller.collect_submodules s;
     collect_data_files := PyInstaller.collect_data_files s |}.

End Hook.

(** ** Concrete hosts, used to run the scripts *)

Module Scenario.
Import Py.

(** An interpreter that rejects a source text starting with a closing
    parenthesis, fails with a division by zero on a source text starting
    with [1/0] and runs every other source text; CPython's suffixes on
    Linux. *)
Definition demo_compile (src : bytes) : option exn :=
  match src with
  | Byte.x29 :: _ => Some (BodyError "SyntaxError: unmatched ')'")
  | _ => None
  end.

Definition demo_run (k : loader_class) (content : bytes) : option exn :=
  match k with
  | SourceFileLoader =>
      match content with
      | Byte.x31 :: Byte.x2f :: Byte.x30 :: _ =>
          Some (BodyError "ZeroDivisionError: division by zero")
      | _ => None
      end
  | _ => Some (BodyError "ImportError: bad magic number")
  end.

#[export] Instance demo_interp : Interp :=
  {| py_compile := demo_compile;
     py_run := demo_run;
     extension_suffixes := [".cpython-311-x86_64-linux-gnu.so"; ".abi3.so"; ".so"];
     source_hash := fun src => N.of_nat (length src);
     pyc_size := fun src => 16 + length src |}.

Definition src_2ch : bytes := String.list_byte_of_string "import re".
Definition src_old : bytes := String.list_byte_of_string "import os".
Definition src_bad : bytes := String.list_byte_of_string ")".
Definition src_div : bytes := String.list_byte_of_string "1/0".

(** A bundle that holds one resource of [gallery_dl.extractor]. *)
Definition bundle_with (relpath : string) (data : bytes)
  : string → string → result (option bytes) :=
  fun package resource =>
    if String.eqb package "gallery_dl.extractor" && String.eqb resource relpath
    then Ok (Some data) else Ok None.

Definition bundle_empty : string → string → result (option bytes) :=
  fun _ _ => Ok None.

Definition slash_tmp : posixpath.absolute := exist _ "/tmp" eq_refl.

(** A machine with [/tmp] and room on the disk. *)
Definition machine (bundle : string → string → result (option bytes)) (free : nat) : World :=
  {| packaged_data := bundle; tmp := slash_tmp; cwd := "/";
     files := ∅; mtime := ∅; dirs := {["/"; "/tmp"]}; pycache := ∅;
     readonly := ∅; disk_free := free; clock := 1700000000;
     dont_write_bytecode := false; recursion_room := 990;
     sys_modules := ∅ |}.

Definition w_found : World := machine (bundle_with "2ch.py" src_2ch) 4096.
Definition w_missing : World := machine bundle_empty 4096.
Definition w_zero_bytes : World := machine (bundle_with "2ch.py" []) 4096.
Definition w_disk_full : World := machine (bundle_with "2ch.py" src_2ch) 3.
Definition w_syntax_error : World := machine (bundle_with "2ch.py" src_bad) 4096.
Definition w_body_raises : World := machine (bundle_with "2ch.py" src_div) 4096.

(** The directory and the file of the shim. *)
Definition shim_dir : string := "/tmp/gallery_dl_pyinst_extractors".
Definition shim_file : string := "/tmp/gallery_dl_pyinst_extractors/2ch.py".

(** A machine on which an earlier run, of a bundle with another [2ch.py] of
    the same size, left its file and the bytecode cache of it in the same
    second. *)
Definition w_stale : World :=
  {| packaged_data := bundle_with "2ch.py" src_2ch; tmp := slash_tmp; cwd := "/";
     files := {[ shim_file := src_old ]};
     mtime := {[ shim_file := 1700000000%N ]};
     dirs := {["/"; "/tmp"; shim_dir]};
     pycache :=
       {[ "/tmp/gallery_dl_pyinst_extractors/__pycache__" :=
            {[ "2ch.cpython-311.pyc" :=
                 {| pyc_head := Timestamp 1700000000 9; pyc_body := Ok src_old;
                    pyc_len := 25 |} ]} ]};
     readonly := ∅; disk_free := 4096; clock := 1700000000;
     dont_write_bytecode := false; recursion_room := 990;
     sys_modules := ∅ |}.


(** A build machine with a small gallery-dl: [output] is a module, the other
    three plugin groups are packages, and pip left bytecode caches. *)
Definition file (dir : list string) (name : string) (content : string)
  : PyInstaller.InstalledFile :=
  {| PyInstaller.file_dir := dir; PyInstaller.file_name := name;
     PyInstaller.file_content := String.list_byte_of_string content |}.

Definition gallery_dl_modules : list PyInstaller.entry :=
  [ PyInstaller.Pkg "gallery_dl" true
      [ PyInstaller.Pkg "extractor" true
          [ PyInstaller.Mod "common" true; PyInstaller.Mod "2ch" true ];
        PyInstaller.Pkg "downloader" true [ PyInstaller.Mod "http" true ];
        PyInstaller.Pkg "postprocessor" true [ PyInstaller.Mod "zip" true ];
        PyInstaller.Mod "output" true;
        PyInstaller.Mod "text" true ] ].

(** The bytecode cache pip left beside [2ch.py]. *)
Definition cache_2ch : PyInstaller.InstalledFile :=
  file ["gallery_dl"; "extractor"; "__pycache__"] "2ch.cpython-311.pyc" "cache".

Definition gallery_dl_files : list PyInstaller.InstalledFile :=
  [ file ["gallery_dl"] "__init__.py" "";
    file ["gallery_dl"] "output.py" "import sys";
    file ["gallery_dl"; "extractor"] "__init__.py" "modules = []";
    file ["gallery_dl"; "extractor"] "2ch.py" "import re";
    cache_2ch;
    file ["requests"] "__init__.py" "" ].

Definition site_installed : PyInstaller.Site :=
  {| PyInstaller.site_dir := "/venv/lib/python3.11/site-packages";
     PyInstaller.toplevel := gallery_dl_modules;
     PyInstaller.installed := gallery_dl_files |}.

(** A build machine without gallery-dl. *)
Definition site_without : PyInstaller.Site :=
  {| PyInstaller.site_dir := "/venv/lib/python3.11/site-packages";
     PyInstaller.toplevel := [ PyInstaller.Pkg "requests" true [] ];
     PyInstaller.installed := [ file ["requests"] "__init__.py" "" ] |}.

(** A build machine on which one extractor cannot be imported (a dependency
    of it is missing, say). *)
Definition site_broken : PyInstaller.Site :=
  {| PyInstaller.site_dir := "/venv/lib/python3.11/site-packages";
     PyInstaller.toplevel :=
       [ PyInstaller.Pkg "gallery_dl" true
           [ PyInstaller.Pkg "extractor" true
               [ PyInstaller.Mod "common" true; PyInstaller.Mod "broken" false ] ] ];
     PyInstaller.installed := [ file ["gallery_dl"; "extractor"] "broken.py" "import nothing" ] |}.

(** A build machine on which gallery-dl is installed and its import fails
    (a dependency of it is missing, say). *)
Definition site_unimportable : PyInstaller.Site :=
  {| PyInstaller.site_dir := "/venv/lib/python3.11/site-packages";
     PyInstaller.toplevel :=
       [ PyInstaller.Pkg "gallery_dl" false
           [ PyInstaller.Pkg "extractor" true [ PyInstaller.Mod "2ch" true ] ] ];
     PyInstaller.installed := [ file ["gallery_dl"] "__init__.py" "import requests" ] |}.

(** What the hook binds on the machine with gallery-dl. *)
Definition manifest_installed : Hook.Manifest :=
  {| Hook.hiddenimports :=
       [ "gallery_dl.extractor"; "gallery_dl.extractor.2ch";
         "gallery_dl.extractor.common"; "gallery_dl.downloader";
         "gallery_dl.downloader.http"; "gallery_dl.postprocessor";
         "gallery_dl.postprocessor.zip"; "gallery_dl.output" ];
     Hook.datas :=
       [ ("/venv/lib/python3.11/site-packages/gallery_dl/__init__.py", "gallery_dl");
         ("/venv/lib/python3.11/site-packages/gallery_dl/output.py", "gallery_dl");
         ("/venv/lib/python3.11/site-packages/gallery_dl/extractor/__init__.py",
          "gallery_dl/extractor");
         ("/venv/lib/python3.11/site-packages/gallery_dl/extractor/2ch.py",
          "gallery_dl/extractor") ] |}.

End Scenario.

(** ** More hosts *)

Module Hosts.
Import Py.

(** A bundle that names its resource by a rooted path. *)
Definition w_rooted : World :=
  Scenario.machine (Scenario.bundle_with "/2ch.py" Scenario.src_2ch) 4096.

(** A bundle that holds the resource in a subdirectory. *)
Definition w_nested : World :=
  Scenario.machine (Scenario.bundle_with "sub/dir/2ch.py" Scenario.src_2ch) 4096.

(** A resource that is no module file. *)
Definition w_text : World :=
  Scenario.machine (Scenario.bundle_with "notes.txt" Scenario.src_2ch) 4096.

End Hosts.

(** ** Relations between the host before and after *)

Module Footprint.
Import Py.

(** From [w] to [w'] directories were only added, and a [__pycache__]
    directory is as it was or gone with the new directory it is in. *)
Record grows (w w' : World) : Prop := {
  grows_dirs : dirs w ⊆ dirs w';
  grows_pycache : ∀ k, pycache w' !! k = pycache w !! k ∨ pycache w' !! k = None;
}.

(** A computation respects a relation on hosts when every run of it, normal
    or not, relates the host before to the host after. *)
Definition respects {A} (R : World → World → Prop) (c : M A) : Prop :=
  ∀ w r w', c w = (r, w') → R w w'.

End Footprint.

(** * Properties *)

(** ** Strings and paths *)

Section PathFacts.

Lemma append_nil (b : string) : "" ++ b = b.
Proof. reflexivity. Qed.

Lemma append_cons (c : ascii) (a b : string) : String c a ++ b = String c (a ++ b).
Proof. reflexivity. Qed.

Lemma append_assoc (a b c : string) : (a ++ b) ++ c = a ++ (b ++ c).
Proof.
  induction a as [|x a IH]; [by rewrite !append_nil|].
  by rewrite !append_cons, IH.
Qed.

Lemma append_nonempty (a b : string) : b ≠ "" → a ++ b ≠ "".
Proof. destruct a; [by rewrite append_nil|by rewrite append_cons]. Qed.

Lemma eqb_sep_single (a : ascii) (s : string) :
  String.eqb (String a s) "/" = true → a = "/"%char ∧ s = "".
Proof.
  intros E. apply String.eqb_eq in E. by inversion E.
Qed.

Lemma endswith_cons (c : ascii) (s suf : string) :
  Str.endswith (String c s) suf = String.eqb (String c s) suf || Str.endswith s suf.
Proof. reflexivity. Qed.

Lemma endswith_refl (s : string) : Str.endswith s s = true.
Proof. destruct s; cbn [Str.endswith]; by rewrite String.eqb_refl. Qed.

Lemma endswith_app (a b suf : string) :
  Str.endswith b suf = true → Str.endswith (a ++ b) suf = true.
Proof.
  intros E. induction a as [|c a IH]; [by rewrite append_nil|].
  rewrite append_cons, endswith_cons, IH. apply orb_true_r.
Qed.

Lemma endswith_sep_app (a b : string) :
  b ≠ "" → Str.endswith (a ++ b) "/" = Str.endswith b "/".
Proof.
  intros Hb. induction a as [|c a IH]; [by rewrite append_nil|].
  rewrite append_cons, endswith_cons, IH.
  destruct (String.eqb (String c (a ++ b)) "/") eqn:E; [|done].
  apply eqb_sep_single in E as [_ E]. by apply append_nonempty in E.
Qed.

Lemma rpartition_nosep (c : ascii) (t : string) :
  Str.contains c t = false → Str.rpartition c t = ("", t).
Proof.
  induction t as [|a t IH]; simpl; [done|].
  intros [Ha Ht]%orb_false_elim. by rewrite (IH Ht), Ha.
Qed.

Lemma rpartition_app (c : ascii) (a t : string) :
  Str.contains c t = false →
  Str.rpartition c (a ++ String c t) = (a ++ String c "", t).
Proof.
  intros Ht. induction a as [|x a IH].
  - rewrite !append_nil. simpl. by rewrite (rpartition_nosep _ _ Ht), Ascii.eqb_refl.
  - rewrite !append_cons. cbn [Str.rpartition]. rewrite IH.
    destruct a; by rewrite ?append_nil, ?append_cons.
Qed.

Lemma rstrip_id (c : ascii) (a : string) :
  Str.endswith a (String c "") = false → Str.rstrip c a = a.
Proof.
  induction a as [|x a IH]; [done|].
  rewrite endswith_cons. intros [E1 E2]%orb_false_elim.
  cbn [Str.rstrip]. rewrite (IH E2).
  destruct a; [|done].
  destruct (Ascii.eqb x c) eqn:E; [|done].
  apply Ascii.eqb_eq in E as ->. by rewrite String.eqb_refl in E1.
Qed.




(** A path that ends with a separator is some path followed by it. *)
Lemma endswith_sep_inv (s : string) :
  Str.endswith s "/" = true → ∃ s', s = s' ++ "/".
Proof.
  induction s as [|x s IH]; [done|].
  rewrite endswith_cons. intros [E|E]%orb_true_iff.
  - apply eqb_sep_single in E as [-> ->]. by exists "".
  - destruct (IH E) as [s' ->]. by exists (String x s').
Qed.

Lemma startswith_sep_cons (x : ascii) (s : string) :
  Str.startswith (String x s) "/" = Ascii.eqb "/" x.
Proof. cbn [Str.startswith]. destruct s; apply andb_true_r. Qed.

Lemma startswith_sep_nosep (b : string) :
  Str.contains "/" b = false → Str.startswith b "/" = false.
Proof.
  destruct b as [|x b]; [done|]. cbn [Str.startswith Str.contains].
  intros [Hx _]%orb_false_elim. rewrite Ascii.eqb_sym in Hx. by rewrite Hx.
Qed.



Lemma join_endswith (a b suf : string) :
  Str.endswith b suf = true → Str.endswith (posixpath.join a b) suf = true.
Proof.
  intros E. unfold posixpath.join.
  destruct (Str.startswith b "/"); [done|].
  destruct (Str.is_empty a || Str.endswith a "/"); by repeat apply endswith_app.
Qed.

Lemma join_not_endswith_sep (a b : string) :
  b ≠ "" → Str.endswith b "/" = false → Str.endswith (posixpath.join a b) "/" = false.
Proof.
  intros Hb E. unfold posixpath.join.
  destruct (Str.startswith b "/"); [done|].
  destruct (Str.is_empty a || Str.endswith a "/"); by rewrite ?endswith_sep_app.
Qed.

Lemma join_nonempty (a b : string) :
  b ≠ "" → Str.is_empty (posixpath.join a b) = false.
Proof.
  intros Hb. unfold posixpath.join.
  assert (∀ x, x ≠ "" → Str.is_empty x = false) as Hx by (by intros []).
  destruct (Str.startswith b "/"); [by apply Hx|].
  destruct (Str.is_empty a || Str.endswith a "/"); by apply Hx, append_nonempty.
Qed.

Lemma join_normal (a b : string) :
  b ≠ "" → Str.endswith b "/" = false → posixpath.normal (posixpath.join a b).
Proof. intros Hb E E'. by rewrite join_not_endswith_sep in E'. Qed.

Lemma join_isabs (a b : string) :
  posixpath.isabs a = true → posixpath.isabs (posixpath.join a b) = true.
Proof.
  unfold posixpath.isabs, posixpath.join. intros Ha.
  destruct (Str.startswith b "/") eqn:E; [done|].
  destruct a as [|x a]; [done|].
  rewrite startswith_sep_cons in Ha.
  destruct (Str.is_empty (String x a) || Str.endswith (String x a) "/");
    by rewrite append_cons, startswith_sep_cons.
Qed.

Lemma contains_sep_endswith (p : string) :
  Str.contains "/" p = false → Str.endswith p "/" = false.
Proof.
  induction p as [|c p IH]; [done|]. cbn [Str.contains].
  intros [Hc Hp]%orb_false_elim. rewrite endswith_cons, (IH Hp), orb_false_r.
  destruct (String.eqb (String c p) "/") eqn:E; [|done].
  apply eqb_sep_single in E as [-> _]. done.
Qed.



Lemma startswith_inv (x p : string) :
  Str.startswith x p = true → ∃ r, x = p ++ r.
Proof.
  revert x. induction p as [|c p IH]; intros x; [by exists x|].
  destruct x as [|a x]; [done|]. cbn [Str.startswith].
  intros [->%Ascii.eqb_eq Hx]%andb_true_iff.
  destruct (IH _ Hx) as [r ->]. by exists r.
Qed.

Lemma rstrip_not_endswith (c : ascii) (s : string) :
  Str.endswith (Str.rstrip c s) (String c "") = false.
Proof.
  induction s as [|a s IH]; [done|]. cbn [Str.rstrip].
  destruct (Str.rstrip c s) as [|y r] eqn:E.
  - destruct (Ascii.eqb a c) eqn:Ea; [done|].
    rewrite endswith_cons. cbn [String.eqb Str.endswith]. by rewrite Ea.
  - rewrite endswith_cons, IH, orb_false_r. cbn [String.eqb].
    by destruct (Ascii.eqb a c).
Qed.

(** [dirname] gives no trailing separator, the root apart. *)
Lemma dirname_normal (p : string) : posixpath.normal (posixpath.dirname p).
Proof.
  unfold posixpath.normal, posixpath.dirname, posixpath.split, posixpath.sep.
  destruct (Str.rpartition "/" p) as [h t].
  destruct (negb (Str.is_empty h) && negb (Str.all_char "/" h)) eqn:E; cbn [fst].
  - by rewrite rstrip_not_endswith.
  - apply andb_false_iff in E as [E|E]; apply negb_false_iff in E.
    + by destruct h.
    + done.
Qed.

End PathFacts.

(** ** The host operations *)

Section HostFacts.
Import Py.
Local Open Scope py_scope.
Context `{Interp}.

Lemma tempdir_isabs (w : World) : posixpath.isabs (tempdir w) = true.
Proof.
  unfold tempdir. destruct (tmp w) as [p Hp]. cbn.
  by apply andb_true_iff in Hp as [? _].
Qed.



Lemma bind_inv {A B} (c : M A) (k : A → M B) (w w' : World) (r : result B) :
  bind c k w = (r, w') →
  (∃ a w1, c w = (Ok a, w1) ∧ k a w1 = (r, w')) ∨
  (∃ e, c w = (Raise e, w') ∧ r = Raise e).
Proof.
  unfold bind. destruct (c w) as [[a|e] w1]; intros E.
  - left. by exists a, w1.
  - right. exists e. by inversion E.
Qed.

Lemma bind_ok {A B} (c : M A) (k : A → M B) (w w1 : World) (a : A) :
  c w = (Ok a, w1) → bind c k w = k a w1.
Proof. unfold bind. by intros ->. Qed.

Lemma bind_raise {A B} (c : M A) (k : A → M B) (w w1 : World) (e : exn) :
  c w = (Raise e, w1) → bind c k w = (Raise e, w1).
Proof. unfold bind. by intros ->. Qed.

Lemma with_fs_id (w : World) :
  with_fs w (files w) (mtime w) (dirs w) (pycache w) (disk_free w) = w.
Proof. by destruct w. Qed.

Section Keeps.
Context {B : Type} (f : World → B) (Hf : fs_blind f).

Lemma keeps_ret {A} (a : A) : keeps f (ret a).
Proof. intros w r w' E. by inversion E. Qed.

Lemma keeps_raise {A} (e : exn) : keeps f (@raise A e).
Proof. intros w r w' E. by inversion E. Qed.

Lemma keeps_bind {A C} (c : M A) (k : A → M C) :
  keeps f c → (∀ a, keeps f (k a)) → keeps f (bind c k).
Proof.
  intros Hc Hk w r w' E.
  apply bind_inv in E as [(a & w1 & E1 & E2)|(e & E1 & _)].
  - rewrite (Hk _ _ _ _ E2). eauto.
  - eauto.
Qed.

Lemma keeps_try {A} (c : M A) (handles : exn → bool) (h : exn → M A) :
  keeps f c → (∀ e, keeps f (h e)) → keeps f (try_except c handles h).
Proof.
  intros Hc Hh w r w'. unfold try_except.
  destruct (c w) as [[a|e] w1] eqn:E.
  - intros E'. inversion E'; subst. eauto.
  - destruct (handles e).
    + intros E'. rewrite (Hh _ _ _ _ E'). eauto.
    + intros E'. inversion E'; subst. eauto.
Qed.

Lemma keeps_os_mkdir (p : string) : keeps f (os_mkdir p).
Proof.
  intros w r w'. unfold os_mkdir.
  repeat case_match; intros E; inversion E; by rewrite ?Hf.
Qed.

Lemma keeps_mkdir_exist_ok (p : string) : keeps f (mkdir_exist_ok p).
Proof.
  apply keeps_try; [apply keeps_os_mkdir|].
  intros e w r w'. case_match; intros E; by inversion E.
Qed.

Lemma keeps_makedirs_rec (fuel : nat) (name : string) :
  keeps f (makedirs_rec fuel name).
Proof.
  revert name. induction fuel as [|fuel IH]; intros name; [apply keeps_raise|].
  cbn [makedirs_rec].
  destruct (posixpath.split name) as [head tail].
  destruct (if Str.is_empty tail then posixpath.split head else (head, tail))
    as [head' tail'].
  intros w r w'. case_match.
  - apply keeps_bind.
    + apply keeps_try; [apply IH|]. intros _. apply keeps_ret.
    + intros _. case_match; [apply keeps_ret|apply keeps_mkdir_exist_ok].
  - apply keeps_mkdir_exist_ok.
Qed.

Lemma keeps_os_makedirs (name : string) : keeps f (os_makedirs name).
Proof. intros w r w'. apply keeps_makedirs_rec. Qed.

Lemma keeps_open_wb (dst : string) : keeps f (open_wb dst).
Proof.
  intros w r w'. unfold open_wb.
  repeat case_match; intros E; inversion E; by rewrite ?Hf.
Qed.

Lemma keeps_file_write (dst : string) (data : bytes) : keeps f (file_write dst data).
Proof.
  intros w r w'. unfold file_write.
  repeat case_match; intros E; inversion E; by rewrite ?Hf.
Qed.

Lemma keeps_write_file (dst : string) (data : bytes) : keeps f (write_file dst data).
Proof.
  apply keeps_bind; [apply keeps_open_wb|]. intros _. apply keeps_file_write.
Qed.

End Keeps.



Lemma fs_blind_clock : fs_blind clock.
Proof. done. Qed.



Lemma fs_blind_flag : fs_blind dont_write_bytecode.
Proof. done. Qed.

Lemma fs_blind_cwd : fs_blind cwd.
Proof. done. Qed.

Lemma read_file_world (p : string) (w w' : World) (r : result bytes) :
  read_file p w = (r, w') → w' = w.
Proof. unfold read_file. repeat case_match; intros E; by inversion E. Qed.

Lemma load_content_world (k : loader_class) (p : string) (w w' : World) (r : result bytes) :
  load_content k p w = (r, w') → w' = w.
Proof.
  unfold load_content. intros E.
  apply bind_inv in E as [(a & w1 & E1 & E2)|(e & E1 & _)].
  - apply read_file_world in E1 as ->.
    destruct (py_exec k a); by inversion E2.
  - by apply read_file_world in E1.
Qed.

Lemma gettempdir_world (w w' : World) (r : result string) :
  tempfile_gettempdir w = (r, w') → w' = w.
Proof. unfold tempfile_gettempdir. case_match; intros E; by inversion E. Qed.

Lemma spec_from_file_location_world (name loc : string) (w w' : World) r :
  spec_from_file_location name loc w = (r, w') → w' = w.
Proof. unfold spec_from_file_location. case_match; intros E; by inversion E. Qed.

Lemma module_from_spec_world (spec : option ModuleSpec) (w w' : World) r :
  module_from_spec spec w = (r, w') → w' = w.
Proof.
  unfold module_from_spec. destruct spec as [s|]; [|intros E; by inversion E].
  destruct (spec_loader s) as [[[] n p]|]; try (intros E; by inversion E).
  intros E. apply bind_inv in E as [(a & w1 & E1 & E2)|(e & E1 & _)].
  - apply load_content_world in E1 as ->. by inversion E2.
  - by apply load_content_world in E1.
Qed.

(** *** The bytecode cache *)

(** Writing the cache touches the [__pycache__] directories and the free
    space, and nothing else. *)
Lemma cache_bytecode_fs (path : string) (c : pyc) (w : World) :
  ∃ pc n, cache_bytecode path c w = with_fs w (files w) (mtime w) (dirs w) pc n.
Proof.
  assert (∃ pc n, w = with_fs w (files w) (mtime w) (dirs w) pc n) as Hid.
  { eexists _, _. symmetry. apply with_fs_id. }
  unfold cache_bytecode.
  destruct (dont_write_bytecode w); [done|].
  destruct (match pycache w !! cache_dir path with
            | Some entries => Some entries
            | None => _
            end) as [entries|]; [|done].
  destruct (negb (bool_decide (cache_dir path ∈ readonly w))
            && Nat.leb (pyc_len c) (disk_free w)); by eexists _, _.
Qed.


Lemma get_code_inv (path : string) (code : bytes) (w w' : World) :
  get_code path w = (Ok code, w') →
  ∃ src, files w !! path = Some src ∧
    ((cache_hit path src (default 0%N (mtime w !! path)) w = Some (Ok code) ∧ w' = w) ∨
     (cache_hit path src (default 0%N (mtime w !! path)) w = None ∧ code = src ∧
      py_compile src = None ∧
      w' = cache_bytecode path
             (fresh_pyc (cached path w) (default 0%N (mtime w !! path)) src) w)).
Proof.
  unfold get_code, read_file.
  destruct (files w !! path) as [src|]; [|by destruct (isdir w path)].
  intros E. exists src. split; [done|].
  destruct (cache_hit path src _ w) as [[c|e]|]; [left; by inversion E|done|].
  right. destruct (py_compile src); [done|]. by inversion E.
Qed.

Lemma get_code_fs (path : string) (w w' : World) (r : result bytes) :
  get_code path w = (r, w') →
  ∃ pc n, w' = with_fs w (files w) (mtime w) (dirs w) pc n.
Proof.
  unfold get_code, read_file. intros E.
  assert (w' = w ∨ ∃ c, w' = cache_bytecode path c w) as [->|[c ->]].
  { repeat case_match; simplify_eq; eauto. }
  - eexists _, _. symmetry. apply with_fs_id.
  - apply cache_bytecode_fs.
Qed.

Lemma exec_module_fs (l : Loader) (m : Module) (w w' : World) (r : result Module) :
  exec_module l m w = (r, w') →
  ∃ pc n, w' = with_fs w (files w) (mtime w) (dirs w) pc n.
Proof.
  assert (∀ u, ∃ pc n, u = with_fs u (files u) (mtime u) (dirs u) pc n) as Hid.
  { intros u. eexists _, _. symmetry. apply with_fs_id. }
  unfold exec_module. destruct (loader_kind l).
  - intros E. inversion E; subst. apply Hid.
  - intros E. apply bind_inv in E as [(c & w1 & E1 & E2)|(e & E1 & _)].
    + apply get_code_fs in E1 as (pc & n & ->).
      unfold raise, ret in E2.
      destruct (py_run SourceFileLoader c); inversion E2; subst; by eexists _, _.
    + by apply get_code_fs in E1.
  - intros E. apply bind_inv in E as [(c & w1 & E1 & E2)|(e & E1 & _)].
    + apply load_content_world in E1 as ->. inversion E2; subst. apply Hid.
    + apply load_content_world in E1 as ->. apply Hid.
Qed.

(** *** Directories *)

Lemma isdir_mono (w : World) (d : gset string) (p : string) :
  isdir w p = true → dirs w ⊆ d → bool_decide (p ∈ d) = true.
Proof.
  unfold isdir. intros Hp Hd. apply bool_decide_eq_true.
  apply bool_decide_eq_true in Hp. by apply Hd.
Qed.


Lemma mkdir_exist_ok_inv (p : string) (w w' : World) :
  mkdir_exist_ok p w = (Ok tt, w') →
  isdir w' p = true ∧
  (w' = w ∨
   path_exists w p = false ∧
   w' = with_fs w (files w) (mtime w) ({[p]} ∪ dirs w)
          (delete (pycache_of p) (pycache w)) (disk_free w)).
Proof.
  unfold mkdir_exist_ok, try_except, os_mkdir.
  repeat case_match; intros E; simplify_eq.
  all: try match goal with
       | H : negb (isdir _ _) = false |- _ => apply negb_false_iff in H
       end.
  all: try (split; [done|by left]).
  split; [|by right].
  unfold isdir. cbn [dirs with_fs]. apply bool_decide_eq_true.
  by apply elem_of_union_l, elem_of_singleton.
Qed.


(** *** Files *)

Lemma write_file_inv (dst : string) (data : bytes) (w w' : World) :
  write_file dst data w = (Ok tt, w') →
  Str.is_empty dst = false ∧
  isdir w dst || Str.endswith dst "/" = false ∧
  isfile w (posixpath.dirname dst) = false ∧
  parent_isdir w dst = true ∧
  ∃ n, w' = with_fs w (<[dst := data]> (files w)) (<[dst := clock w]> (mtime w))
              (dirs w) (pycache w) n.
Proof.
  unfold write_file. intros E.
  apply bind_inv in E as [([] & w1 & E1 & E2)|(e & _ & ?)]; [|done].
  unfold open_wb in E1. unfold file_write in E2.
  destruct (Str.is_empty dst); [done|].
  destruct (isdir w dst || Str.endswith dst "/"); [done|].
  destruct (isfile w (posixpath.dirname dst)); [done|].
  destruct (parent_isdir w dst); [|done].
  repeat split.
  destruct (Nat.leb (length data) (disk_free w1)); [|done].
  inversion E2; subst w'. clear E2.
  destruct (files w !! dst) as [old|].
  - destruct (bool_decide (dst ∈ readonly w)); [done|].
    inversion E1; subst w1. cbn. rewrite !insert_insert_eq. by eexists.
  - destruct (bool_decide (posixpath.dirname dst ∈ readonly w)); [done|].
    inversion E1; subst w1. cbn. rewrite !insert_insert_eq. by eexists.
Qed.


End HostFacts.

(** ** What the directory calls leave in place *)

Section GrowsFacts.
Import Py Footprint.
Local Open Scope py_scope.
Context `{Interp}.

Lemma grows_refl (w : World) : grows w w.
Proof. constructor; [done|]. intros k. by left. Qed.

Lemma grows_trans (w1 w2 w3 : World) : grows w1 w2 → grows w2 w3 → grows w1 w3.
Proof.
  intros [D1 P1] [D2 P2]. constructor; [by etrans|].
  intros k. destruct (P2 k) as [E | E]; rewrite E; [apply P1|by right].
Qed.

Section Respects.
Context (R : World → World → Prop).
Context (Rrefl : ∀ w, R w w) (Rtrans : ∀ w1 w2 w3, R w1 w2 → R w2 w3 → R w1 w3).

Lemma respects_ret {A} (a : A) : respects R (ret a).
Proof. intros w r w' E. inversion E; subst. apply Rrefl. Qed.

Lemma respects_raise {A} (e : exn) : respects R (@raise A e).
Proof. intros w r w' E. inversion E; subst. apply Rrefl. Qed.

Lemma respects_bind {A B} (c : M A) (k : A → M B) :
  respects R c → (∀ a, respects R (k a)) → respects R (bind c k).
Proof.
  intros Hc Hk w r w' E.
  apply bind_inv in E as [(a & w1 & E1 & E2)|(e & E1 & _)]; [|eauto].
  eapply Rtrans; [eapply Hc, E1|eapply Hk, E2].
Qed.

Lemma respects_try {A} (c : M A) (handles : exn → bool) (h : exn → M A) :
  respects R c → (∀ e, respects R (h e)) → respects R (try_except c handles h).
Proof.
  intros Hc Hh w r w'. unfold try_except.
  destruct (c w) as [[a|e] w1] eqn:E.
  - intros E'. inversion E'; subst. eauto.
  - destruct (handles e).
    + intros E'. eapply Rtrans; [eapply Hc, E|eapply Hh, E'].
    + intros E'. inversion E'; subst. eauto.
Qed.

End Respects.

Lemma grows_mkdir (p : string) : respects grows (os_mkdir p).
Proof.
  intros w r w'. unfold os_mkdir.
  repeat case_match; intros E; inversion E; subst; try apply grows_refl.
  constructor; cbn; [apply union_subseteq_r|].
  intros k. destruct (decide (k = pycache_of p)) as [->|Hk].
  - right. apply lookup_delete_eq.
  - left. by apply lookup_delete_ne.
Qed.

Lemma grows_mkdir_exist_ok (p : string) : respects grows (mkdir_exist_ok p).
Proof.
  apply respects_try; [apply grows_trans|apply grows_mkdir|].
  intros e w r w'. case_match; intros E; inversion E; subst; apply grows_refl.
Qed.

Lemma grows_makedirs_rec (depth : nat) (name : string) :
  respects grows (makedirs_rec depth name).
Proof.
  revert name. induction depth as [|depth IH]; intros name.
  { apply respects_raise, grows_refl. }
  cbn [makedirs_rec].
  destruct (posixpath.split name) as [head tail].
  destruct (if Str.is_empty tail then posixpath.split head else (head, tail))
    as [head' tail'].
  intros w r w'.
  destruct (negb (Str.is_empty head') && negb (Str.is_empty tail')
            && negb (path_exists w head')); [|apply grows_mkdir_exist_ok].
  apply respects_bind; [apply grows_trans| |].
  - apply respects_try; [apply grows_trans|apply IH|].
    intros _. apply respects_ret, grows_refl.
  - intros _. destruct (String.eqb tail' ".");
      [apply respects_ret, grows_refl|apply grows_mkdir_exist_ok].
Qed.

Lemma grows_os_makedirs (name : string) : respects grows (os_makedirs name).
Proof. intros w r w'. apply grows_makedirs_rec. Qed.

Lemma grows_write_file (dst : string) (data : bytes) :
  respects grows (write_file dst data).
Proof.
  apply respects_bind; [apply grows_trans| |intros _].
  - intros w r w'. unfold open_wb.
    repeat case_match; intros E; inversion E; subst; try apply grows_refl.
    all: constructor; [done|intros k; by left].
  - intros w r w'. unfold file_write.
    case_match; intros E; inversion E; subst.
    all: constructor; [done|intros k; by left].
Qed.

(** No call of the directories or of the write puts a cache file in place. *)
Lemma grows_cached (path : string) (w w' : World) :
  grows w w' → cached path w' = cached path w ∨ cached path w' = None.
Proof.
  intros [_ P]. unfold cached.
  destruct (P (cache_dir path)) as [E | E]; rewrite E; [by left|by right].
Qed.

(** Files are only touched by the write. *)
Lemma makedirs_rec_files (depth : nat) (name : string) (w w' : World) (r : result unit) :
  makedirs_rec depth name w = (r, w') →
  files w' = files w ∧ mtime w' = mtime w ∧ disk_free w' = disk_free w.
Proof.
  assert (∀ p u u' q, os_mkdir p u = (q, u') →
            files u' = files u ∧ mtime u' = mtime u ∧ disk_free u' = disk_free u) as Hmk.
  { intros p u u' q. unfold os_mkdir. repeat case_match; intros E; by inversion E. }
  assert (∀ p u u' q, mkdir_exist_ok p u = (q, u') →
            files u' = files u ∧ mtime u' = mtime u ∧ disk_free u' = disk_free u) as Hok.
  { intros p u u' q. unfold mkdir_exist_ok, try_except.
    destruct (os_mkdir p u) as [[[]|e] u1] eqn:E; apply Hmk in E.
    - intros E'. by inversion E'; subst.
    - repeat case_match; intros E'; by inversion E'; subst. }
  revert name w w' r. induction depth as [|depth IH]; intros name w w' r.
  { intros E. by inversion E. }
  cbn [makedirs_rec].
  destruct (posixpath.split name) as [head tail].
  destruct (if Str.is_empty tail then posixpath.split head else (head, tail))
    as [head' tail'].
  destruct (negb (Str.is_empty head') && negb (Str.is_empty tail')
            && negb (path_exists w head')); [|apply Hok].
  intros E.
  assert (∀ u u' q, try_except (makedirs_rec depth head') is_FileExistsError
                      (fun _ => ret tt) u = (q, u') →
            files u' = files u ∧ mtime u' = mtime u ∧ disk_free u' = disk_free u) as Htry.
  { intros u u' q. unfold try_except.
    destruct (makedirs_rec depth head' u) as [[[]|e] u1] eqn:E1; apply IH in E1.
    - intros E'. by inversion E'; subst.
    - destruct (is_FileExistsError e); intros E'; by inversion E'; subst. }
  apply bind_inv in E as [(a & w1 & E1 & E2)|(e & E1 & _)]; [|by apply Htry in E1].
  apply Htry in E1 as (F1 & M1 & D1).
  destruct (String.eqb tail' ".").
  - inversion E2; by subst.
  - apply Hok in E2 as (F2 & M2 & D2). by rewrite F2, M2, D2.
Qed.

End GrowsFacts.

(** ** The runtime hook *)

Section ShimFacts.
Import Py Shim Footprint.
Local Open Scope py_scope.
Context `{Interp}.

Lemma spec_from_file_location_eq (name location : string) (w : World) :
  spec_from_file_location name location w =
  match pick_loader (abs_location w location) _get_supported_file_loaders with
  | None => (Ok None, w)
  | Some k =>
      (Ok (Some {| spec_name := name;
                   spec_loader := Some {| loader_kind := k; loader_name := name;
                                          loader_path := abs_location w location |};
                   spec_origin := abs_location w location |}), w)
  end.
Proof. reflexivity. Qed.

(** The load step touches the bytecode cache and the free space, and
    nothing else. *)
Lemma load_fs (modname dst : string) (w w' : World) (r : result Module) :
  load modname dst w = (r, w') →
  ∃ pc n, w' = with_fs w (files w) (mtime w) (dirs w) pc n.
Proof.
  assert (∃ pc n, w = with_fs w (files w) (mtime w) (dirs w) pc n) as Hid.
  { eexists _, _. symmetry. apply with_fs_id. }
  unfold load. intros E.
  apply bind_inv in E as [(spec & w1 & E1 & E)|(e & E1 & _)];
    [apply spec_from_file_location_world in E1 as ->
    |by apply spec_from_file_location_world in E1 as ->].
  apply bind_inv in E as [(m & w1 & E1 & E)|(e & E1 & _)];
    [apply module_from_spec_world in E1 as ->
    |by apply module_from_spec_world in E1 as ->].
  destruct spec as [s|]; [|by inversion E; subst].
  destruct (spec_loader s) as [l|]; [|by inversion E; subst].
  by apply exec_module_fs in E.
Qed.

Lemma keeps_load {B} (f : World → B) (modname dst : string) :
  fs_blind f → keeps f (load modname dst).
Proof. intros Hf w r w' (pc & n & ->)%load_fs. apply Hf. Qed.

Lemma load_files (modname dst : string) (w w' : World) (r : result Module) :
  load modname dst w = (r, w') →
  files w' = files w ∧ mtime w' = mtime w ∧ dirs w' = dirs w.
Proof. by intros (pc & n & ->)%load_fs. Qed.

Lemma keeps_materialize {B} (f : World → B) (relpath : string) (data : bytes) :
  fs_blind f → keeps f (materialize relpath data).
Proof.
  intros Hf. unfold materialize.
  apply keeps_bind; [intros w r w' E; by apply gettempdir_world in E as ->|].
  intros base. apply keeps_bind; [by apply keeps_os_makedirs|]. intros _.
  apply keeps_bind; [by apply keeps_os_makedirs|]. intros _.
  apply keeps_bind; [by apply keeps_write_file|]. intros _. apply keeps_ret.
Qed.

Lemma grows_materialize (relpath : string) (data : bytes) :
  respects grows (materialize relpath data).
Proof.
  unfold materialize.
  apply respects_bind; [apply grows_trans| |intros base].
  { intros w r w' E. apply gettempdir_world in E as ->. apply grows_refl. }
  apply respects_bind; [apply grows_trans|apply grows_os_makedirs|intros _].
  apply respects_bind; [apply grows_trans|apply grows_os_makedirs|intros _].
  apply respects_bind; [apply grows_trans|apply grows_write_file|intros _].
  apply respects_ret, grows_refl.
Qed.

(** The function is the fetch, the guard, and then steps 2 to 4. *)
Lemma preload_unfold (modname relpath : string) (w : World) :
  _preload_extractor modname relpath w =
  match packaged_data w "gallery_dl.extractor" relpath with
  | Ok (Some (b :: d)) => preload_found modname relpath (b :: d) w
  | Ok _ => (Ok tt, w)
  | Raise e => (Raise e, w)
  end.
Proof.
  unfold _preload_extractor. unfold bind at 1. unfold pkgutil_get_data.
  destruct (packaged_data w "gallery_dl.extractor" relpath) as [[[|b d]|]|e]; try done.
  unfold preload_found, materialize, load, register, bind, ret, raise.
  repeat case_match; congruence.
Qed.

(** The two paths the shim passes to [os.makedirs] have no trailing
    separator (the root apart), wherever the temporary directory is and
    whatever the name of the resource. *)
Lemma makedirs_names_normal (base relpath : string) :
  let tmpdir := posixpath.join base "gallery_dl_pyinst_extractors" in
  posixpath.normal tmpdir ∧
  posixpath.normal (posixpath.dirname (posixpath.join tmpdir relpath)).
Proof. split; [by apply join_normal|apply dirname_normal]. Qed.

(** The destination is an absolute path, and the location the module
    specification records is the destination. *)
Lemma dst_of_isabs (w : World) (relpath : string) :
  posixpath.isabs (dst_of w relpath) = true.
Proof. unfold dst_of. apply join_isabs, join_isabs, tempdir_isabs. Qed.

Lemma abs_location_dst (w u : World) (relpath : string) :
  abs_location u (dst_of w relpath) = dst_of w relpath.
Proof. unfold abs_location. by rewrite dst_of_isabs. Qed.

(** What a successful load step has done: a loader class was picked for
    the location, and the module carries the code that was executed: for a
    source file what [get_code] returned, else the content of the file. *)
Lemma load_inv (modname dst : string) (w w' : World) (m : Module) :
  load modname dst w = (Ok m, w') →
  ∃ k code,
    pick_loader (abs_location w dst) _get_supported_file_loaders = Some k ∧
    m = {| mod_name := modname; mod_file := abs_location w dst;
           mod_loader := Some {| loader_kind := k; loader_name := modname;
                                 loader_path := abs_location w dst |};
           mod_code := Some code |} ∧
    match k with
    | SourceFileLoader =>
        get_code (abs_location w dst) w = (Ok code, w') ∧
        py_run SourceFileLoader code = None
    | _ =>
        files w !! abs_location w dst = Some code ∧ py_exec k code = None ∧ w' = w
    end.
Proof.
  assert (∀ k c u u', load_content k (abs_location w dst) u = (Ok c, u') →
            files u !! abs_location w dst = Some c ∧ py_exec k c = None ∧ u' = u)
    as Hcontent.
  { intros k c u u'. unfold load_content, bind, read_file.
    destruct (files u !! abs_location w dst) as [d|]; [|by destruct (isdir u _)].
    unfold raise, ret. destruct (py_exec k d) eqn:Hx; [done|].
    intros E. by inversion E; subst. }
  unfold load. unfold bind at 1. rewrite spec_from_file_location_eq.
  destruct (pick_loader (abs_location w dst) _get_supported_file_loaders) as [k|];
    [|by unfold bind, module_from_spec, raise].
  intros E. exists k.
  apply bind_inv in E as [(m0 & w1 & E1 & E)|(e & _ & ?)]; [|done].
  unfold module_from_spec in E1. unfold exec_module in E.
  cbn [spec_loader spec_name spec_origin loader_kind loader_path] in *.
  destruct k.
  - apply bind_inv in E1 as [(d & w3 & Ed & E1)|(e & _ & ?)]; [|done].
    apply Hcontent in Ed as (Hd & Hx & ->).
    inversion E1; subst. inversion E; subst. by exists d.
  - inversion E1; subst.
    apply bind_inv in E as [(c & w3 & Ec & E)|(e & _ & ?)]; [|done].
    unfold raise, ret in E. destruct (py_run SourceFileLoader c) eqn:Hx; [done|].
    inversion E; subst. by exists c.
  - inversion E1; subst.
    apply bind_inv in E as [(d & w3 & Ed & E)|(e & _ & ?)]; [|done].
    apply Hcontent in Ed as (Hd & Hx & ->).
    inversion E; subst. by exists d.
Qed.


(** What a successful materialize step has done. *)
Lemma materialize_inv (relpath : string) (data : bytes) (w w1 : World) (dst : string) :
  materialize relpath data w = (Ok dst, w1) →
  dst = dst_of w relpath ∧ isdir w (tempdir w) = true ∧
  ∃ wa wb,
    os_makedirs (posixpath.join (tempdir w) "gallery_dl_pyinst_extractors") w = (Ok tt, wa) ∧
    os_makedirs (posixpath.dirname dst) wa = (Ok tt, wb) ∧
    write_file dst data wb = (Ok tt, w1).
Proof.
  unfold materialize. intros E.
  apply bind_inv in E as [(base & w0 & E0 & E)|(e & _ & ?)]; [|done].
  unfold tempfile_gettempdir in E0.
  destruct (isdir w (tempdir w)) eqn:Hd; [|done]. inversion E0; subst base w0.
  apply bind_inv in E as [([] & wa & Ea & E)|(e & _ & ?)]; [|done].
  apply bind_inv in E as [([] & wb & Eb & E)|(e & _ & ?)]; [|done].
  apply bind_inv in E as [([] & wc & Ec & E)|(e & _ & ?)]; [|done].
  inversion E; subst. unfold dst_of. eauto 10.
Qed.

(** After it the destination holds the resource, written now. *)
Lemma materialize_file (relpath : string) (data : bytes) (w w1 : World) (dst : string) :
  materialize relpath data w = (Ok dst, w1) →
  files w1 !! dst = Some data ∧ mtime w1 !! dst = Some (clock w).
Proof.
  intros E.
  pose proof (keeps_materialize clock _ _ fs_blind_clock _ _ _ E) as Hclock.
  apply materialize_inv in E as (-> & _ & wa & wb & Ea & Eb & Ew).
  pose proof (keeps_os_makedirs clock fs_blind_clock _ _ _ _ Ea) as Ha.
  pose proof (keeps_os_makedirs clock fs_blind_clock _ _ _ _ Eb) as Hb.
  apply write_file_inv in Ew as (_ & _ & _ & _ & n & ->). cbn.
  rewrite !lookup_insert_eq. by rewrite Hb, Ha.
Qed.

End ShimFacts.

Section ShimClaims.
Import Py Shim Footprint.
Local Open Scope py_scope.
Context `{Interp}.

(** A module that comes out of the load step has been executed. *)
Lemma load_executed (modname dst : string) (w w' : World) (m : Module) :
  load modname dst w = (Ok m, w') → is_Some (mod_code m).
Proof. intros (k & code & _ & -> & _)%load_inv. by eexists. Qed.


(** C2. When the fetch returns nothing ([pkgutil.get_data] gives [None]), the
    shim returns normally and leaves the whole host as it was: nothing is
    written to the file system and [sys.modules] is unchanged. *)
Theorem preload_missing_resource (modname relpath : string) (w : World) :
  packaged_data w "gallery_dl.extractor" relpath = Ok None →
  _preload_extractor modname relpath w = (Ok tt, w).
Proof. intros E. by rewrite preload_unfold, E. Qed.

(** When the fetch itself raises (a loader that reports a missing file with
    an [OSError], for instance), the exception leaves the function: the call
    is not guarded. *)
Lemma preload_fetch_raises (modname relpath : string) (w : World) (e : exn) :
  packaged_data w "gallery_dl.extractor" relpath = Raise e →
  _preload_extractor modname relpath w = (Raise e, w).
Proof. intros E. by rewrite preload_unfold, E. Qed.

(** C8. A resource of zero bytes is treated exactly like a missing one: the
    guard [if not data] is taken, the shim returns at once, writes no file
    and registers nothing. *)
Theorem preload_zero_bytes (modname relpath : string) (w : World) :
  packaged_data w "gallery_dl.extractor" relpath = Ok (Some []) →
  _preload_extractor modname relpath w = (Ok tt, w).
Proof. intros E. by rewrite preload_unfold, E. Qed.

(** C9. The registration is the last step.  A run that raises leaves
    [sys.modules] as it was; a run that returns either changed nothing or
    inserted, under the target name, a module that has been executed. *)
Theorem registration_is_last (modname relpath : string) (w w' : World) (r : result unit) :
  _preload_extractor modname relpath w = (r, w') →
  match r with
  | Raise _ => sys_modules w' = sys_modules w
  | Ok _ =>
      w' = w ∨
      ∃ m, is_Some (mod_code m) ∧ sys_modules w' = <[modname := m]> (sys_modules w)
  end.
Proof.
  rewrite preload_unfold.
  destruct (packaged_data w "gallery_dl.extractor" relpath) as [[[|b d]|]|e];
    try (intros E; inversion E; subst; by auto).
  unfold preload_found. intros E.
  apply bind_inv in E as [(dst & w1 & E1 & E)|(e & E1 & ->)];
    [|by apply (keeps_materialize sys_modules) in E1].
  apply (keeps_materialize sys_modules) in E1; [|done].
  apply bind_inv in E as [(m & w2 & E2 & E)|(e & E2 & ->)];
    [|by apply (keeps_load sys_modules) in E2 as ->].
  pose proof (load_executed _ _ _ _ _ E2) as Hm.
  apply (keeps_load sys_modules) in E2; [|done].
  unfold register, sys_modules_set in E. inversion E; subst.
  right. exists m. split; [done|]. cbn. by rewrite E2, E1.
Qed.

(** C4. Once the resource is found, a failure of the materialize step or of
    the load step is the outcome of the shim: the exception leaves the
    function, with the host as the failing step left it.  The register step
    cannot fail. *)
Theorem preload_failures_propagate (modname relpath : string) (w : World)
    (data : bytes) (e : exn) :
  packaged_data w "gallery_dl.extractor" relpath = Ok (Some data) →
  data ≠ [] →
  (∀ w1, materialize relpath data w = (Raise e, w1) →
         _preload_extractor modname relpath w = (Raise e, w1)) ∧
  (∀ dst w1 w2, materialize relpath data w = (Ok dst, w1) →
         load modname dst w1 = (Raise e, w2) →
         _preload_extractor modname relpath w = (Raise e, w2)) ∧
  (∀ m w1, fst (register modname m w1) = Ok tt).
Proof.
  intros E Hd. rewrite preload_unfold, E.
  destruct data as [|b d]; [done|]. unfold preload_found.
  split; [|split].
  - intros w1 E1. by rewrite (bind_raise _ _ _ _ _ E1).
  - intros dst w1 w2 E1 E2.
    rewrite (bind_ok _ _ _ _ _ E1). by rewrite (bind_raise _ _ _ _ _ E2).
  - done.
Qed.

(** The materialize step fails as soon as one of its calls fails. *)
Lemma materialize_propagates (relpath : string) (data : bytes) (w w1 : World) (e : exn) :
  let tmpdir base := posixpath.join base "gallery_dl_pyinst_extractors" in
  let dst base := posixpath.join (tmpdir base) relpath in
  tempfile_gettempdir w = (Raise e, w1) ∨
  (∃ base w0, tempfile_gettempdir w = (Ok base, w0) ∧
     (os_makedirs (tmpdir base) w0 = (Raise e, w1) ∨
      ∃ wa, os_makedirs (tmpdir base) w0 = (Ok tt, wa) ∧
        (os_makedirs (posixpath.dirname (dst base)) wa = (Raise e, w1) ∨
         ∃ wb, os_makedirs (posixpath.dirname (dst base)) wa = (Ok tt, wb) ∧
           write_file (dst base) data wb = (Raise e, w1)))) →
  materialize relpath data w = (Raise e, w1).
Proof.
  intros tmpdir dst. unfold materialize.
  intros [E|(base & w0 & E0 & [E|(wa & Ea & [E|(wb & Eb & E)])])].
  - by rewrite (bind_raise _ _ _ _ _ E).
  - rewrite (bind_ok _ _ _ _ _ E0). by rewrite (bind_raise _ _ _ _ _ E).
  - rewrite (bind_ok _ _ _ _ _ E0), (bind_ok _ _ _ _ _ Ea).
    by rewrite (bind_raise _ _ _ _ _ E).
  - rewrite (bind_ok _ _ _ _ _ E0), (bind_ok _ _ _ _ _ Ea), (bind_ok _ _ _ _ _ Eb).
    by rewrite (bind_raise _ _ _ _ _ E).
Qed.

(** The load step fails when no loader handles the path, when the module
    cannot be created, and when its execution raises. *)
Lemma load_propagates (modname dst : string) (w w1 : World) (e : exn) :
  (spec_from_file_location modname dst w = (Ok None, w) ∧
   module_from_spec None w = (Raise e, w1)) ∨
  (∃ s, spec_from_file_location modname dst w = (Ok (Some s), w) ∧
     (module_from_spec (Some s) w = (Raise e, w1) ∨
      ∃ m l, module_from_spec (Some s) w = (Ok m, w) ∧ spec_loader s = Some l ∧
             exec_module l m w = (Raise e, w1))) →
  load modname dst w = (Raise e, w1).
Proof.
  unfold load. intros [[E0 E]|(s & E0 & [E|(m & l & Em & El & E)])].
  - rewrite (bind_ok _ _ _ _ _ E0). by rewrite (bind_raise _ _ _ _ _ E).
  - rewrite (bind_ok _ _ _ _ _ E0). by rewrite (bind_raise _ _ _ _ _ E).
  - rewrite (bind_ok _ _ _ _ _ E0), (bind_ok _ _ _ _ _ Em). by rewrite El.
Qed.

End ShimClaims.

Section ShimLoad.
Import Py Shim.
Local Open Scope py_scope.
Context `{Interp}.

Lemma endswith_py_not_sep (s : string) :
  Str.endswith s ".py" = true → Str.endswith s "/" = false.
Proof.
  induction s as [|c s IH]; [done|].
  rewrite !endswith_cons. intros [E|E]%orb_true_iff.
  - apply String.eqb_eq in E. inversion E; subst. reflexivity.
  - rewrite (IH E), orb_false_r.
    destruct (String.eqb (String c s) "/") eqn:E'; [|done].
    apply eqb_sep_single in E' as [_ ->]. done.
Qed.

Lemma abs_location_py (w : World) (location : string) :
  Str.endswith location ".py" = true →
  Str.endswith (abs_location w location) ".py" = true.
Proof.
  intros E. unfold abs_location, _path_join.
  destruct (posixpath.isabs location); [done|].
  assert (Str.rstrip "/" location = location) as Hr
    by (apply rstrip_id; by apply endswith_py_not_sep).
  destruct location as [|c l]; [done|].
  destruct (Str.is_empty (cwd w)); cbn [Str.is_empty]; rewrite Hr; [done|].
  by repeat apply endswith_app.
Qed.

(** A location that ends in [".py"] is handled by a file loader. *)
Lemma pick_loader_py (location : string) :
  Str.endswith location ".py" = true →
  is_Some (pick_loader location _get_supported_file_loaders).
Proof.
  intros E. unfold _get_supported_file_loaders. cbn [pick_loader].
  destruct (endswith_any location extension_suffixes); [by eexists|].
  unfold SOURCE_SUFFIXES. cbn [endswith_any existsb]. rewrite E. by eexists.
Qed.

(** C10. For a relative path that ends in [".py"] the specification built
    from the temporary path exists and carries a loader, wherever the
    temporary directory is; the load step is past its assertion and is the
    creation and the execution of the module. *)
Theorem spec_for_py_has_loader (modname relpath base : string) (w : World) :
  Str.endswith relpath ".py" = true →
  let dst := posixpath.join (posixpath.join base "gallery_dl_pyinst_extractors") relpath in
  ∃ s l,
    spec_from_file_location modname dst w = (Ok (Some s), w) ∧
    spec_loader s = Some l ∧
    load modname dst w = bind (module_from_spec (Some s)) (exec_module l) w.
Proof.
  intros E dst.
  assert (Str.endswith dst ".py" = true) as Hdst by by apply join_endswith.
  destruct (pick_loader_py _ (abs_location_py w _ Hdst)) as [k Hk].
  eexists _, _. split; [|split].
  - by rewrite spec_from_file_location_eq, Hk.
  - done.
  - unfold load. unfold bind at 1. rewrite spec_from_file_location_eq, Hk.
    cbn [spec_loader].
    unfold bind. by destruct (module_from_spec _ w) as [[m|e] w1].
Qed.

End ShimLoad.


Section ShimRuns.
Import Py Shim Footprint.
Local Open Scope py_scope.
Context `{Interp}.

(** C1, as amended.  When the bundle holds a resource that is not empty,
    the shim returns, and no bytecode cache left beside the temporary file
    is valid for the new file while it holds other code, the target name is
    in [sys.modules] afterwards, bound to a module whose executed content is
    the resource, byte for byte; the temporary file holds the same bytes. *)
Theorem preload_registers_resource (modname relpath : string) (w w' : World)
    (data : bytes) :
  packaged_data w "gallery_dl.extractor" relpath = Ok (Some data) →
  data ≠ [] →
  (∀ body, cache_hit (dst_of w relpath) data (clock w) w = Some body → body = Ok data) →
  _preload_extractor modname relpath w = (Ok tt, w') →
  ∃ m, sys_modules w' !! modname = Some m ∧
       mod_name m = modname ∧ mod_code m = Some data ∧
       files w' !! dst_of w relpath = Some data.
Proof.
  intros E Hd Hcache. rewrite preload_unfold, E.
  destruct data as [|b d]; [done|]. unfold preload_found. intros R.
  apply bind_inv in R as [(dst & w1 & E1 & R)|(e & _ & ?)]; [|done].
  apply bind_inv in R as [(m & w2 & E2 & R)|(e & _ & ?)]; [|done].
  pose proof (materialize_file _ _ _ _ _ E1) as [Hfile Hmt].
  pose proof (grows_materialize _ _ _ _ _ E1) as Hgrows.
  apply materialize_inv in E1 as (-> & _).
  pose proof (load_files _ _ _ _ _ E2) as (Hfiles & _ & _).
  apply load_inv in E2 as (k & code & _ & -> & Hrun).
  rewrite abs_location_dst in Hrun.
  assert (code = b :: d) as ->.
  { destruct k.
    - destruct Hrun as (Hcode & _). congruence.
    - destruct Hrun as [(src & Hsrc & Hcode)%get_code_inv _].
      assert (src = b :: d) as -> by congruence.
      rewrite Hmt in Hcode. cbn [default] in Hcode.
      destruct Hcode as [[Hhit _]|(_ & -> & _)]; [|done].
      assert (cache_hit (dst_of w relpath) (b :: d) (clock w) w = Some (Ok code)) as Hw.
      { unfold cache_hit in *.
        destruct (grows_cached (dst_of w relpath) _ _ Hgrows) as [Hc|Hc];
          rewrite Hc in Hhit; done. }
      apply Hcache in Hw. by inversion Hw.
    - destruct Hrun as (Hcode & _). congruence. }
  unfold register, sys_modules_set in R. inversion R; subst w'. cbn.
  eexists. rewrite lookup_insert_eq. split; [done|]. split; [done|]. split; [done|].
  by rewrite Hfiles.
Qed.





End ShimRuns.

(** ** Further properties of the runtime hook *)

Section ShimExtras.
Import Py Shim Footprint.
Local Open Scope py_scope.
Context `{Interp}.

(** X2. Nothing is cleaned up: when the load step fails after the file was
    written, the function fails with the same exception, on the host as the
    load step left it; the temporary file still holds the whole resource and
    [sys.modules] is untouched, after the write and after the failed load. *)
Theorem failed_load_leaves_file (modname relpath dst : string) (w w1 w2 : World)
    (data : bytes) (e : exn) :
  packaged_data w "gallery_dl.extractor" relpath = Ok (Some data) →
  data ≠ [] →
  materialize relpath data w = (Ok dst, w1) →
  load modname dst w1 = (Raise e, w2) →
  _preload_extractor modname relpath w = (Raise e, w2) ∧
  files w1 !! dst = Some data ∧
  sys_modules w1 = sys_modules w ∧
  files w2 !! dst = Some data ∧
  sys_modules w2 = sys_modules w.
Proof.
  intros E Hd E1 E2. rewrite preload_unfold, E.
  destruct data as [|b d]; [done|]. unfold preload_found.
  rewrite (bind_ok _ _ _ _ _ E1), (bind_raise _ _ _ _ _ E2).
  split; [done|].
  pose proof (load_files _ _ _ _ _ E2) as (-> & _ & _).
  apply (keeps_load sys_modules) in E2 as ->; [|done].
  assert (files w1 !! dst = Some (b :: d)) as Hfile
    by (by apply materialize_file in E1 as [? _]).
  assert (sys_modules w1 = sys_modules w) as Hmod
    by (by apply (keeps_materialize sys_modules) in E1).
  done.
Qed.

(** X3. The assertion of the load step is never what fails.  When no file
    loader handles the location, [module_from_spec] has already failed on
    the missing specification with an [AttributeError]; otherwise the
    specification carries a loader of the class that was picked, and the
    step is the creation and the execution of the module. *)
Theorem load_fails_before_assert (modname dst : string) (w : World) :
  match pick_loader (abs_location w dst) _get_supported_file_loaders with
  | None =>
      load modname dst w
      = (Raise (AttributeError "'NoneType' object has no attribute 'loader'"), w)
  | Some k =>
      ∃ s l, spec_from_file_location modname dst w = (Ok (Some s), w) ∧
             spec_loader s = Some l ∧ loader_kind l = k ∧
             load modname dst w = bind (module_from_spec (Some s)) (exec_module l) w
  end.
Proof.
  destruct (pick_loader (abs_location w dst) _get_supported_file_loaders) as [k|] eqn:Hk.
  - eexists _, _. rewrite spec_from_file_location_eq, Hk.
    split; [done|]. split; [done|]. split; [done|].
    unfold load. unfold bind at 1. rewrite spec_from_file_location_eq, Hk.
    cbn [spec_loader]. unfold bind.
    by destruct (module_from_spec _ w) as [[m|e] w1].
  - unfold load. unfold bind at 1. by rewrite spec_from_file_location_eq, Hk.
Qed.

(** Where the bytes go. *)
Lemma dst_of_cases (w : World) (relpath : string) :
  dst_of w relpath =
  if Str.startswith relpath "/" then relpath
  else posixpath.join (tempdir w) "gallery_dl_pyinst_extractors" ++ "/" ++ relpath.
Proof.
  unfold dst_of. unfold posixpath.join at 1.
  destruct (Str.startswith relpath "/"); [done|].
  by rewrite join_nonempty, join_not_endswith_sep.
Qed.

(** X4. After a run that found the resource and returned, the resource is
    in the file [os.path.join(tmpdir, relpath)].  For a rooted [relpath]
    that is [relpath] itself, outside the temporary directory; otherwise it
    is the directory of the shim, a separator and [relpath]. *)
Theorem preload_file_location (modname relpath : string) (w w' : World) (data : bytes) :
  packaged_data w "gallery_dl.extractor" relpath = Ok (Some data) →
  data ≠ [] →
  _preload_extractor modname relpath w = (Ok tt, w') →
  files w' !! dst_of w relpath = Some data ∧
  dst_of w relpath =
    if Str.startswith relpath "/" then relpath
    else posixpath.join (tempdir w) "gallery_dl_pyinst_extractors" ++ "/" ++ relpath.
Proof.
  intros E Hd. rewrite preload_unfold, E.
  destruct data as [|b d]; [done|]. unfold preload_found. intros R.
  split; [|apply dst_of_cases].
  apply bind_inv in R as [(dst & w1 & E1 & R)|(e & _ & ?)]; [|done].
  apply bind_inv in R as [(m & w2 & E2 & R)|(e & _ & ?)]; [|done].
  pose proof (load_files _ _ _ _ _ E2) as (Hf & _ & _).
  pose proof (materialize_file _ _ _ _ _ E1) as [Hfile _].
  apply materialize_inv in E1 as (-> & _).
  unfold register, sys_modules_set in R. inversion R; subst w'. cbn.
  by rewrite Hf.
Qed.

Lemma split_join_tail (base name : string) :
  Str.contains "/" name = false →
  snd (posixpath.split (posixpath.join base name)) = name.
Proof.
  intros Hname.
  assert (∀ p, snd (posixpath.split p) = snd (Str.rpartition posixpath.sep p)) as ->.
  { intros p. unfold posixpath.split.
    destruct (Str.rpartition posixpath.sep p). by case_match. }
  unfold posixpath.join, posixpath.sep. rewrite (startswith_sep_nosep _ Hname).
  destruct base as [|x base].
  - cbn [Str.is_empty orb]. by rewrite append_nil, (rpartition_nosep _ _ Hname).
  - cbn [Str.is_empty orb].
    destruct (Str.endswith (String x base) "/") eqn:E.
    + destruct (endswith_sep_inv _ E) as [b' ->].
      by rewrite append_assoc, append_cons, append_nil, (rpartition_app _ _ _ Hname).
    + by rewrite (rpartition_app _ _ _ Hname).
Qed.

(** A successful [os.makedirs] leaves the directory in place, unless the
    path ends in a [.] component. *)
Lemma makedirs_isdir (name : string) (w w' : World) :
  snd (posixpath.split name) ≠ "" → snd (posixpath.split name) ≠ "." →
  os_makedirs name w = (Ok tt, w') → isdir w' name = true.
Proof.
  unfold os_makedirs. cbn [makedirs_rec].
  destruct (posixpath.split name) as [head tail]. cbn [snd]. intros Hne Hdot.
  destruct tail as [|c tail]; [done|]. cbn [Str.is_empty].
  assert (String.eqb (String c tail) "." = false) as Hd by by apply String.eqb_neq.
  destruct (negb (Str.is_empty head) && negb false && negb (path_exists w head)).
  - intros E. apply bind_inv in E as [(a & w1 & _ & E)|(e & _ & ?)]; [|done].
    rewrite Hd in E. by apply mkdir_exist_ok_inv in E as [? _].
  - intros E. by apply mkdir_exist_ok_inv in E as [? _].
Qed.

(** X5. After a run that found the resource and returned, the directory of
    the shim exists, and so does the directory the file is in: for a
    [relpath] with directories in it they were made on the way. *)
Theorem preload_directories (modname relpath : string) (w w' : World) (data : bytes) :
  packaged_data w "gallery_dl.extractor" relpath = Ok (Some data) →
  data ≠ [] →
  _preload_extractor modname relpath w = (Ok tt, w') →
  isdir w' (posixpath.join (tempdir w) "gallery_dl_pyinst_extractors") = true ∧
  parent_isdir w' (dst_of w relpath) = true.
Proof.
  intros E Hd. rewrite preload_unfold, E.
  destruct data as [|b d]; [done|]. unfold preload_found. intros R.
  apply bind_inv in R as [(dst & w1 & E1 & R)|(e & _ & ?)]; [|done].
  apply bind_inv in R as [(m & w2 & E2 & R)|(e & _ & ?)]; [|done].
  pose proof (load_files _ _ _ _ _ E2) as (_ & _ & Hdirs).
  apply materialize_inv in E1 as (-> & _ & wa & wb & Ea & Eb & Ew).
  unfold register, sys_modules_set in R. inversion R; subst w'.
  apply makedirs_isdir in Ea; [|by rewrite split_join_tail..].
  apply grows_os_makedirs in Eb as [Hsub _].
  apply write_file_inv in Ew as (_ & _ & _ & Hpar & n & ->).
  unfold parent_isdir, isdir in *. cbn. rewrite Hdirs. cbn.
  split; [|exact Hpar].
  by apply (isdir_mono wa).
Qed.

(** X6. The module a run registers is a file module of the temporary file,
    not of the bundle: its [__file__] is the absolute path of the file that
    was written, its loader is a file loader for the target name on that
    path, of the class the suffix of the path selects.  With an absolute
    temporary directory the path is the destination as it was joined. *)
Theorem preload_module_origin (modname relpath : string) (w w' : World) (data : bytes) :
  packaged_data w "gallery_dl.extractor" relpath = Ok (Some data) →
  data ≠ [] →
  _preload_extractor modname relpath w = (Ok tt, w') →
  ∃ m l, sys_modules w' !! modname = Some m ∧
         mod_file m = abs_location w (dst_of w relpath) ∧
         mod_loader m = Some l ∧ loader_name l = modname ∧
         loader_path l = mod_file m ∧
         pick_loader (mod_file m) _get_supported_file_loaders = Some (loader_kind l) ∧
         (posixpath.isabs (tempdir w) = true → mod_file m = dst_of w relpath).
Proof.
  intros E Hd. rewrite preload_unfold, E.
  destruct data as [|b d]; [done|]. unfold preload_found. intros R.
  apply bind_inv in R as [(dst & w1 & E1 & R)|(e & _ & ?)]; [|done].
  apply bind_inv in R as [(m & w2 & E2 & R)|(e & _ & ?)]; [|done].
  apply materialize_inv in E1 as (-> & _).
  apply load_inv in E2 as (k & code & Hk & -> & _).
  rewrite abs_location_dst in *.
  unfold register, sys_modules_set in R. inversion R; subst w'. cbn.
  eexists _, _. rewrite lookup_insert_eq. cbn.
  repeat (split; [done|]). done.
Qed.






End ShimExtras.

(** ** When the runtime hook returns *)

Section ShimSucceeds.
Import Py Shim.
Local Open Scope py_scope.
Context `{Interp}.



End ShimSucceeds.

(** ** The build-time hook: what [collect_submodules] lists *)

Section ScanFacts.
Import PyInstaller.

Lemma entry_ind_nested (P : entry → Prop)
    (Hmod : ∀ n b, P (Mod n b))
    (Hpkg : ∀ n b cs, Forall P cs → P (Pkg n b cs)) :
  ∀ e, P e.
Proof.
  fix IH 1. intros [n b|n b cs]; [apply Hmod|].
  apply Hpkg. induction cs as [|c cs IHcs]; constructor; [apply IH|apply IHcs].
Qed.

Lemma scan_sound (e : entry) : ∀ name x, x ∈ scan name e → Under name e x.
Proof.
  induction e as [n b|n b cs IH] using entry_ind_nested; intros name x.
  - cbn. intros ->%list_elem_of_singleton. constructor.
  - destruct b; cbn [scan]; [|by intros ?%elem_of_nil].
    intros [->|Hx]%elem_of_cons; [constructor|].
    apply list_elem_of_In, in_flat_map in Hx as (c & Hc & Hx).
    apply list_elem_of_In in Hc, Hx.
    eapply under_sub; [done|]. rewrite Forall_forall in IH. by apply IH.
Qed.

Lemma scan_complete (name : string) (e : entry) (x : string) :
  Under name e x → x ∈ scan name e.
Proof.
  induction 1 as [name n b|name n cs|name n cs c x Hc _ IH]; cbn [scan].
  - by apply list_elem_of_singleton.
  - by left.
  - right. apply list_elem_of_In, in_flat_map. exists c.
    split; by apply list_elem_of_In.
Qed.

Lemma sorted_elem_of (l : list string) (x : string) : x ∈ Str.sorted l ↔ x ∈ l.
Proof. unfold Str.sorted. by rewrite merge_sort_Permutation. Qed.


Lemma startswith_app (p q : string) : Str.startswith (p ++ q) p = true.
Proof.
  induction p as [|c p IH]; [by destruct q|].
  rewrite append_cons. cbn [Str.startswith]. by rewrite Ascii.eqb_refl, IH.
Qed.

Lemma startswith_app_l (x p q : string) :
  Str.startswith x (p ++ q) = true → Str.startswith x p = true.
Proof.
  revert x. induction p as [|c p IH]; intros x; [by destruct x|].
  rewrite append_cons. destruct x as [|a x]; [done|]. cbn [Str.startswith].
  intros [-> Hx]%andb_true_iff. by rewrite (IH _ Hx).
Qed.

Lemma under_inside (name : string) (e : entry) (x : string) :
  Under name e x → inside name x.
Proof.
  induction 1 as [name n b|name n cs|name n cs c x Hc _ IH]; [by left..|].
  right. destruct IH as [->|IH].
  - rewrite <- append_assoc. apply startswith_app.
  - replace ((name ++ "." ++ entry_name c) ++ ".")
      with ((name ++ ".") ++ (entry_name c ++ ".")) in IH
      by (by rewrite !append_assoc).
    by apply startswith_app_l in IH.
Qed.

(** *** Dotted names *)

Lemma split_nonempty (c : ascii) (s : string) : Str.split c s ≠ [].
Proof.
  induction s as [|a s IH]; [done|]. cbn [Str.split].
  destruct (Ascii.eqb a c); [done|]. by destruct (Str.split c s).
Qed.

Lemma split_nodot (c : ascii) (s : string) :
  Str.contains c s = false → Str.split c s = [s].
Proof.
  induction s as [|a s IH]; [done|]. cbn [Str.contains Str.split].
  intros [Ha Hs]%orb_false_elim. by rewrite Ha, (IH Hs).
Qed.

Lemma split_app (c : ascii) (a b : string) :
  Str.split c (a ++ String c b) = (Str.split c a ++ Str.split c b)%list.
Proof.
  induction a as [|x a IH].
  - rewrite append_nil. cbn [Str.split]. by rewrite Ascii.eqb_refl.
  - rewrite append_cons. cbn [Str.split]. rewrite IH.
    destruct (Ascii.eqb x c); [done|].
    pose proof (split_nonempty c a). by destruct (Str.split c a).
Qed.

Lemma join_split (c : ascii) (s : string) :
  Str.join (String c "") (Str.split c s) = s.
Proof.
  induction s as [|a s IH]; [done|]. cbn [Str.split].
  pose proof (split_nonempty c s) as Hne.
  destruct (Ascii.eqb a c) eqn:E.
  - apply Ascii.eqb_eq in E as ->.
    destruct (Str.split c s) as [|h t]; [done|].
    change (Str.join (String c "") ("" :: h :: t))
      with (String c (Str.join (String c "") (h :: t))).
    by rewrite IH.
  - destruct (Str.split c s) as [|h t]; [done|]. rewrite <- IH.
    by destruct t.
Qed.

(** *** Looking a name up *)

Lemma find_entry_Some (n : string) (es : list entry) (e : entry) :
  find_entry n es = Some e → e ∈ es ∧ entry_name e = n.
Proof.
  unfold find_entry. intros [Hin Hn]%find_some. split.
  - by apply list_elem_of_In.
  - by apply String.eqb_eq.
Qed.

Lemma find_entry_NoDup (es : list entry) (e : entry) :
  NoDup (map entry_name es) → e ∈ es → find_entry (entry_name e) es = Some e.
Proof.
  unfold find_entry. induction es as [|e0 es IH]; [by intros _ ?%elem_of_nil|].
  cbn [map find]. intros [Hnotin Hnd]%NoDup_cons [->|Hin]%elem_of_cons.
  - by rewrite String.eqb_refl.
  - destruct (String.eqb (entry_name e0) (entry_name e)) eqn:E; [|by apply IH].
    apply String.eqb_eq in E. destruct Hnotin. rewrite E.
    apply list_elem_of_In, in_map. by apply list_elem_of_In.
Qed.

Lemma find_spec_snoc (parts : list string) :
  ∀ es n cs m e,
    find_spec es parts = Some (Pkg n true cs) → find_entry m cs = Some e →
    find_spec es (parts ++ [m]) = Some e.
Proof.
  induction parts as [|a parts IH]; intros es n cs m e; [done|].
  destruct parts as [|b parts].
  - cbn. by intros -> ->.
  - change (find_spec es ((a :: b :: parts) ++ [m]))
      with (match find_entry a es with
            | Some (Pkg _ true sub) => find_spec sub ((b :: parts) ++ [m])
            | _ => None
            end).
    change (find_spec es (a :: b :: parts))
      with (match find_entry a es with
            | Some (Pkg _ true sub) => find_spec sub (b :: parts)
            | _ => None
            end).
    destruct (find_entry a es) as [[|? [] sub]|]; try done.
    apply IH.
Qed.

Lemma find_spec_app (A : list string) :
  ∀ es B e,
    A ≠ [] → B ≠ [] → find_spec es (A ++ B) = Some e →
    ∃ n cs, find_spec es A = Some (Pkg n true cs) ∧ find_spec cs B = Some e.
Proof.
  induction A as [|a A IH]; intros es B e HA HB; [done|].
  destruct A as [|a' A].
  - destruct B as [|b B]; [done|].
    change (find_spec es ([a] ++ b :: B))
      with (match find_entry a es with
            | Some (Pkg _ true sub) => find_spec sub (b :: B)
            | _ => None
            end).
    cbn [find_spec].
    destruct (find_entry a es) as [[|n [] sub]|]; try done.
    intros E. by exists n, sub.
  - change (find_spec es ((a :: a' :: A) ++ B))
      with (match find_entry a es with
            | Some (Pkg _ true sub) => find_spec sub ((a' :: A) ++ B)
            | _ => None
            end).
    change (find_spec es (a :: a' :: A))
      with (match find_entry a es with
            | Some (Pkg _ true sub) => find_spec sub (a' :: A)
            | _ => None
            end).
    destruct (find_entry a es) as [[|? [] sub]|]; try done.
    by apply IH.
Qed.

(** *** What is found is what is located *)

Lemma found_prefix (sub : list entry) (x : string) (e : entry) :
  Found sub x e →
  ∀ es n, Pkg n true sub ∈ es → Found es (n ++ "." ++ x) e.
Proof.
  induction 1 as [sub e He|sub x n' cs e _ IH He]; intros es n Hn.
  - by apply (found_sub es n n sub e (found_top es (Pkg n true sub) Hn)).
  - replace (n ++ "." ++ x ++ "." ++ entry_name e)%string
      with ((n ++ "." ++ x) ++ "." ++ entry_name e)%string
      by (by rewrite !append_assoc).
    apply (found_sub es (n ++ "." ++ x) n' cs e); [by apply IH|done].
Qed.

Lemma find_spec_found (parts : list string) :
  ∀ es e, find_spec es parts = Some e → Found es (Str.join "." parts) e.
Proof.
  induction parts as [|a parts IH]; intros es e; [done|].
  destruct parts as [|b parts].
  - cbn. intros [Hin <-]%find_entry_Some. by constructor.
  - change (find_spec es (a :: b :: parts))
      with (match find_entry a es with
            | Some (Pkg _ true sub) => find_spec sub (b :: parts)
            | _ => None
            end).
    destruct (find_entry a es) as [[|n [] sub]|] eqn:Ea; try done.
    apply find_entry_Some in Ea as [Hin Hn]. cbn in Hn. subst n.
    intros E%IH.
    change (Str.join "." (a :: b :: parts)) with (a ++ "." ++ Str.join "." (b :: parts)).
    by apply (found_prefix sub).
Qed.

Lemma wf_entry_inv (e : entry) :
  wf_entry e = true →
  Str.contains "." (entry_name e) = false ∧
  match e with
  | Mod _ _ => True
  | Pkg _ _ cs => NoDup (map entry_name cs) ∧ forallb wf_entry cs = true
  end.
Proof.
  destruct e as [n b|n b cs]; cbn [wf_entry entry_name].
  - intros [Hn _]%andb_true_iff. by apply negb_true_iff in Hn.
  - intros [Hn [Hnd Hcs]%andb_true_iff]%andb_true_iff.
    apply negb_true_iff in Hn. by apply bool_decide_eq_true in Hnd.
Qed.

Lemma forallb_elem_of {A} (f : A → bool) (l : list A) (x : A) :
  forallb f l = true → x ∈ l → f x = true.
Proof. rewrite forallb_forall. intros Hl Hx. by apply Hl, list_elem_of_In. Qed.

(** With directory listings that name each entry once and without a dot,
    the entry found under a name is the one [find_spec] locates. *)
Lemma found_locate (es : list entry) (x : string) (e : entry) :
  NoDup (map entry_name es) → forallb wf_entry es = true →
  Found es x e →
  find_spec es (Str.split "." x) = Some e ∧ wf_entry e = true.
Proof.
  intros Hnd Hwf. induction 1 as [es e He|es x n cs e _ IH He].
  - pose proof (forallb_elem_of _ _ _ Hwf He) as Hw. split; [|done].
    apply wf_entry_inv in Hw as [Hdot _].
    rewrite (split_nodot _ _ Hdot). cbn [find_spec]. by apply find_entry_NoDup.
  - destruct (IH Hnd Hwf) as [Hloc [_ [Hndc Hwfc]]%wf_entry_inv].
    pose proof (forallb_elem_of _ _ _ Hwfc He) as Hw. split; [|done].
    apply wf_entry_inv in Hw as [Hdot _].
    change (x ++ "." ++ entry_name e)%string with (x ++ String "." (entry_name e))%string.
    rewrite split_app, (split_nodot _ _ Hdot).
    apply (find_spec_snoc _ _ _ _ _ _ Hloc). by apply find_entry_NoDup.
Qed.

(** Every name of a scan is found, and a package of a scan imports. *)
Lemma scan_found (es : list entry) (e0 : entry) :
  ∀ name x, Found es name e0 → x ∈ scan name e0 →
    ∃ e, Found es x e ∧ (is_pkg e = true → entry_imports e = true).
Proof.
  induction e0 as [n b|n b cs IH] using entry_ind_nested; intros name x Hf.
  - cbn. intros ->%list_elem_of_singleton. by eexists.
  - destruct b; cbn [scan]; [|by intros ?%elem_of_nil].
    intros [->|Hx]%elem_of_cons; [by eexists|].
    apply list_elem_of_In, in_flat_map in Hx as (c & Hc & Hx).
    apply list_elem_of_In in Hc, Hx.
    rewrite Forall_forall in IH. apply (IH c Hc _ _ (found_sub _ _ _ _ _ Hf Hc) Hx).
Qed.

(** What is located below a package is in the scan of the package. *)
Lemma find_spec_scan (B : list string) :
  ∀ cs e name,
    find_spec cs B = Some e → (is_pkg e = true → entry_imports e = true) →
    (name ++ "." ++ Str.join "." B)%string
      ∈ flat_map (fun c => scan (name ++ "." ++ entry_name c) c) cs.
Proof.
  induction B as [|a B IH]; intros cs e name; [done|].
  destruct B as [|b B].
  - cbn [find_spec Str.join]. intros [Hin <-]%find_entry_Some He.
    apply list_elem_of_In, in_flat_map. exists e.
    split; [by apply list_elem_of_In|]. apply list_elem_of_In.
    destruct e as [n i|n i c]; [by left|].
    cbn in He. rewrite He by done. by left.
  - change (find_spec cs (a :: b :: B))
      with (match find_entry a cs with
            | Some (Pkg _ true sub) => find_spec sub (b :: B)
            | _ => None
            end).
    destruct (find_entry a cs) as [[|n [] sub]|] eqn:Ea; try done.
    apply find_entry_Some in Ea as [Hin Hn]. cbn in Hn. subst n.
    intros E He.
    apply list_elem_of_In, in_flat_map. exists (Pkg a true sub).
    split; [by apply list_elem_of_In|]. apply list_elem_of_In.
    cbn [scan entry_name]. right.
    change (Str.join "." (a :: b :: B)) with (a ++ "." ++ Str.join "." (b :: B)).
    replace (name ++ "." ++ a ++ "." ++ Str.join "." (b :: B))%string
      with ((name ++ "." ++ a) ++ "." ++ Str.join "." (b :: B))%string
      by (by rewrite !append_assoc).
    by apply (IH sub e).
Qed.

(** The names [collect_submodules] returns for a package are the submodules
    present under it. *)
Lemma submodules_present (s : Site) (package x : string) :
  wf_site s = true →
  x ∈ submodules s package ↔ Present s package x.
Proof.
  intros [Hnd Hwf]%andb_true_iff. apply bool_decide_eq_true in Hnd.
  unfold submodules, Present, locate. split.
  - destruct (find_spec (toplevel s) (Str.split "." package)) as [e0|] eqn:E0;
      [|by intros ?%elem_of_nil].
    pose proof (find_spec_found _ _ _ E0) as Hf0.
    rewrite (join_split "." package) in Hf0.
    destruct e0 as [n [] | n b cs]; [| by intros ?%elem_of_nil |].
    + intros ->%list_elem_of_singleton. split; [by left|]. by eexists.
    + rewrite sorted_elem_of. intros Hx. split.
      { by apply (under_inside _ (Pkg n b cs)), scan_sound. }
      destruct b; [|by apply elem_of_nil in Hx].
      destruct (scan_found _ _ _ _ Hf0 Hx) as (e & Hf & Hi).
      exists e. split; [done|]. intros [->|He]; [|by apply Hi].
      apply (found_locate _ _ _ Hnd Hwf) in Hf as [Hl _].
      rewrite E0 in Hl. by inversion Hl.
  - intros (Hin & e & Hf & Hi).
    destruct (found_locate _ _ _ Hnd Hwf Hf) as [Hl _].
    destruct Hin as [->|Hpre].
    + rewrite Hl. specialize (Hi (or_introl eq_refl)).
      destruct e as [n b|n b cs]; cbn in Hi; subst b.
      * by apply list_elem_of_singleton.
      * rewrite sorted_elem_of. by left.
    + apply startswith_inv in Hpre as [r ->].
      replace ((package ++ ".") ++ r)%string with (package ++ String "." r)%string in *
        by (by rewrite append_assoc).
      rewrite split_app in Hl.
      apply find_spec_app in Hl as (n & cs & -> & Hr); [|apply split_nonempty..].
      rewrite sorted_elem_of. cbn [scan]. right.
      rewrite <- (join_split "." r) at 1.
      apply (find_spec_scan _ _ e); [done|]. intros He. apply Hi. by right.
Qed.

End ScanFacts.

(** ** The build-time hook: the two manifests *)

Section HookFacts.
Import Py PyInstaller Hook.


(** Whatever the hook utilities are, a hook that evaluates binds the four
    enumerations, appended in the order of the calls, and the data files. *)
Lemma hook_binds (U : HookUtils) (m : Manifest) :
  hook = Ok m →
  ∃ a b c d,
    collect_submodules "gallery_dl.extractor" = Ok a ∧
    collect_submodules "gallery_dl.downloader" = Ok b ∧
    collect_submodules "gallery_dl.postprocessor" = Ok c ∧
    collect_submodules "gallery_dl.output" = Ok d ∧
    hiddenimports m = (a ++ b ++ c ++ d)%list ∧
    collect_data_files "gallery_dl" true = Ok (datas m).
Proof.
  unfold hook, bind_r.
  destruct (collect_submodules "gallery_dl.extractor") as [a|]; [|done].
  destruct (collect_submodules "gallery_dl.downloader") as [b|]; [|done].
  destruct (collect_submodules "gallery_dl.postprocessor") as [c|]; [|done].
  destruct (collect_submodules "gallery_dl.output") as [d|]; [|done].
  destruct (collect_data_files "gallery_dl" true) as [fs|]; [|done].
  intros E. inversion E; subst. by exists a, b, c, d.
Qed.

Lemma join_snoc (dir : list string) (name : string) :
  dir ≠ [] → Str.join "/" (dir ++ [name]) = Str.join "/" dir ++ "/" ++ name.
Proof.
  induction dir as [|p dir IH]; [done|]. intros _.
  destruct dir as [|q dir]; [done|].
  change (Str.join "/" ((p :: q :: dir) ++ [name]))
    with (p ++ "/" ++ Str.join "/" ((q :: dir) ++ [name])).
  rewrite IH by done.
  change (Str.join "/" (p :: q :: dir)) with (p ++ "/" ++ Str.join "/" (q :: dir)).
  by rewrite !append_assoc.
Qed.

Lemma join_components (dir : list string) :
  Forall component dir → dir ≠ [] →
  Str.join "/" dir ≠ "" ∧ Str.endswith (Str.join "/" dir) "/" = false.
Proof.
  induction 1 as [|p dir [Hp Hs] _ IH]; [done|]. intros _.
  destruct dir as [|q dir].
  - split; [done|]. by apply contains_sep_endswith.
  - destruct IH as [Hne He]; [done|].
    change (Str.join "/" (p :: q :: dir)) with (p ++ "/" ++ Str.join "/" (q :: dir)).
    split; [by apply append_nonempty, append_nonempty|].
    rewrite endswith_sep_app by by apply append_nonempty.
    by rewrite endswith_sep_app.
Qed.

End HookFacts.

Section HookClaims.
Import Py PyInstaller Hook.
Context `{Interp}.

(** C3, as amended.  On every build machine the hook evaluates, and
    [hiddenimports] is the enumeration of [gallery_dl.extractor], then
    [gallery_dl.downloader], then [gallery_dl.postprocessor], then
    [gallery_dl.output].  Where the directory listings name each entry once
    and without a dot, the enumeration of a plugin package holds exactly
    the submodules present under it: the names inside the package that the
    import system finds, a module whether or not its own import would
    succeed, a package (and the plugin package itself) only when its import
    succeeds. *)
Theorem hiddenimports_exact (s : Site) :
  wf_site s = true →
  ∃ m, @hook (pyinstaller s) = Ok m ∧
    hiddenimports m =
      (submodules s "gallery_dl.extractor" ++ submodules s "gallery_dl.downloader" ++
       submodules s "gallery_dl.postprocessor" ++ submodules s "gallery_dl.output")%list ∧
    (∀ p x, p ∈ plugin_packages → x ∈ submodules s p ↔ Present s p x) ∧
    (∀ x, x ∈ hiddenimports m ↔ ∃ p, p ∈ plugin_packages ∧ Present s p x).
Proof.
  intros Hwf.
  destruct (@hook (pyinstaller s)) as [m|e] eqn:E; cycle 1.
  { unfold hook, pyinstaller, PyInstaller.collect_submodules,
      PyInstaller.collect_data_files in E. cbn in E. by case_match. }
  exists m. split; [done|].
  apply hook_binds in E as (a & b & c & d & Ea & Eb & Ec & Ed & Ehi & _).
  cbn in Ea, Eb, Ec, Ed. unfold PyInstaller.collect_submodules in *.
  inversion Ea; inversion Eb; inversion Ec; inversion Ed; subst a b c d.
  split; [done|]. split.
  - intros p x _. by apply submodules_present.
  - intros x. rewrite Ehi, !elem_of_app, !(submodules_present s _ _ Hwf).
    unfold plugin_packages. split.
    + intros [?|[?|[?|?]]]; eexists; (split; [|done]); set_solver.
    + intros (p & Hp & Hx).
      apply elem_of_cons in Hp as [->|Hp]; [by left|].
      apply elem_of_cons in Hp as [->|Hp]; [by right; left|].
      apply elem_of_cons in Hp as [->|Hp]; [by right; right; left|].
      apply list_elem_of_singleton in Hp as ->. by right; right; right.
Qed.


(** C6, as amended.  When gallery-dl is installed, [datas] holds one pair
    for each file below the package directory that PyInstaller does not
    exclude (Python source files are kept; a file with the suffix of an
    extension module and a [.pyc] file in a [__pycache__] directory are
    excluded), and nothing else.  The source of a pair is the installed
    file, and its destination directory followed by the file name is the
    path the file has below the installation directory. *)
Theorem datas_collects_package_files (s : Site) (m : Manifest) :
  is_package s "gallery_dl" = true →
  @hook (pyinstaller s) = Ok m →
  (∀ d, d ∈ datas m ↔
        ∃ f, f ∈ installed s ∧ below ["gallery_dl"] f = true ∧
             excluded true ["gallery_dl"] f = false ∧
             d = (source_of s f, dest_of f)) ∧
  (∀ f, f ∈ installed s → below ["gallery_dl"] f = true → well_formed f →
        source_of s f = site_dir s ++ "/" ++ relative_path f ∧
        bundled_at (source_of s f, dest_of f) = relative_path f).
Proof.
  intros Hpkg E.
  apply hook_binds in E as (a & b & c & d0 & _ & _ & _ & _ & _ & Ed).
  cbn in Ed. unfold PyInstaller.collect_data_files in Ed. rewrite Hpkg in Ed.
  cbn in Ed. inversion Ed as [Ed']. clear Ed. split.
  - intros d. rewrite list_elem_of_fmap. setoid_rewrite list_elem_of_filter.
    unfold collected. split.
    + intros (f & -> & [Hb He]%andb_true_iff & Hf).
      apply negb_true_iff in He. by exists f.
    + intros (f & Hf & Hb & He & ->). exists f. by rewrite Hb, He.
  - intros f _ Hb [Hdir [Hne Hname]]. split; [done|].
    unfold below in Hb. apply bool_decide_eq_true in Hb as [rest Hrest].
    assert (file_dir f ≠ []) as Hnil by by rewrite Hrest.
    destruct (join_components _ Hdir Hnil) as [Hd1 Hd2].
    unfold bundled_at, relative_path, source_of, dest_of. cbn [fst snd].
    rewrite (join_snoc _ _ Hnil).
    assert (snd (posixpath.split
                   (site_dir s ++ "/" ++ Str.join "/" (file_dir f) ++ "/" ++ file_name f))
            = file_name f) as ->.
    { unfold posixpath.split, posixpath.sep.
      replace (site_dir s ++ "/" ++ Str.join "/" (file_dir f) ++ "/" ++ file_name f)
        with ((site_dir s ++ "/" ++ Str.join "/" (file_dir f)) ++ String "/" (file_name f))
        by (by rewrite !append_assoc).
      rewrite (rpartition_app _ _ _ Hname). by case_match. }
    unfold posixpath.join.
    rewrite (startswith_sep_nosep _ Hname), Hd2, orb_false_r.
    by destruct (Str.join "/" (file_dir f)).
Qed.

(** A plugin package of a library whose import fails, or that is not
    there, is not located. *)
Lemma locate_plugin_package (s : Site) (sub : string) :
  (∀ e, e ∈ toplevel s → entry_name e = "gallery_dl" → entry_imports e = false) →
  locate s ("gallery_dl." ++ sub) = None.
Proof.
  intros Hlib. unfold locate.
  change ("gallery_dl." ++ sub)%string with ("gallery_dl" ++ String "." sub)%string.
  rewrite split_app, (split_nodot "." "gallery_dl" eq_refl).
  pose proof (split_nonempty "." sub) as Hne.
  destruct (Str.split "." sub) as [|r rest]; [done|].
  change (find_spec (toplevel s) (["gallery_dl"] ++ r :: rest))
    with (match find_entry "gallery_dl" (toplevel s) with
          | Some (Pkg _ true c) => find_spec c (r :: rest)
          | _ => None
          end).
  destruct (find_entry "gallery_dl" (toplevel s)) as [[|n [] c]|] eqn:E; try done.
  apply find_entry_Some in E as [Hin Hn]. by apply Hlib in Hin.
Qed.

(** C7, as amended.  When gallery-dl is not installed, or is installed and
    its import fails, no call of the hook raises: the hook evaluates, and
    [hiddenimports] is bound to the empty list.  When gallery-dl is not
    installed, [datas] is the empty list too. *)
Theorem hook_silent_on_missing_library (s : Site) :
  (∀ e, e ∈ toplevel s → entry_name e = "gallery_dl" → entry_imports e = false) →
  ∃ m, @hook (pyinstaller s) = Ok m ∧
       hiddenimports m = [] ∧
       ((∀ e, e ∈ toplevel s → entry_name e ≠ "gallery_dl") → datas m = []).
Proof.
  intros Hlib.
  pose proof (locate_plugin_package s "extractor" Hlib) as H1.
  pose proof (locate_plugin_package s "downloader" Hlib) as H2.
  pose proof (locate_plugin_package s "postprocessor" Hlib) as H3.
  pose proof (locate_plugin_package s "output" Hlib) as H4.
  change ("gallery_dl." ++ "extractor")%string with "gallery_dl.extractor" in H1.
  change ("gallery_dl." ++ "downloader")%string with "gallery_dl.downloader" in H2.
  change ("gallery_dl." ++ "postprocessor")%string with "gallery_dl.postprocessor" in H3.
  change ("gallery_dl." ++ "output")%string with "gallery_dl.output" in H4.
  unfold hook, pyinstaller. cbn [Hook.collect_submodules Hook.collect_data_files].
  unfold PyInstaller.collect_submodules, PyInstaller.collect_data_files, submodules.
  rewrite H1, H2, H3, H4. cbn [bind_r app].
  destruct (is_package s "gallery_dl") eqn:Hpkg; cbn [negb bind_r];
    eexists; (split; [done|]); (split; [done|]); [|done].
  intros Hnone. exfalso.
  unfold is_package, locate in Hpkg. cbn in Hpkg.
  destruct (find_entry "gallery_dl" (toplevel s)) as [e|] eqn:E; [|done].
  apply find_entry_Some in E as [Hin Hn]. by apply (Hnone e).
Qed.

End HookClaims.

(** ** What the build-time hook collects as data *)

Section HookExtras.
Import Py PyInstaller Hook.
Context `{Interp}.

Lemma endswith_py_not_pyc (s : string) :
  Str.endswith s ".py" = true → Str.endswith s ".pyc" = false.
Proof.
  induction s as [|c s IH]; [done|].
  rewrite !endswith_cons. intros [E|E]%orb_true_iff.
  - apply String.eqb_eq in E. inversion E; subst. reflexivity.
  - rewrite (IH E), orb_false_r. apply String.eqb_neq.
    intros Heq. inversion Heq; subst. vm_compute in E. discriminate E.
Qed.

(** X11. The hook collects the data files of the package [gallery_dl] and
    of nothing else: every pair of [datas] has a destination directory in
    the bundle that is [gallery_dl] or lies below it. *)
Theorem datas_stay_in_package (s : Site) (m : Manifest) (d : string * string) :
  @hook (pyinstaller s) = Ok m →
  d ∈ datas m →
  snd d = "gallery_dl" ∨ Str.startswith (snd d) "gallery_dl/" = true.
Proof.
  intros E Hd.
  apply hook_binds in E as (a & b & c & d0 & _ & _ & _ & _ & _ & Ed).
  cbn in Ed. unfold PyInstaller.collect_data_files in Ed.
  destruct (is_package s "gallery_dl"); cbn in Ed; inversion Ed as [Ed'];
    rewrite <- Ed' in Hd; [|by apply elem_of_nil in Hd].
  apply list_elem_of_fmap in Hd as (f & -> & Hf).
  apply list_elem_of_filter in Hf as [Hc _].
  unfold collected in Hc. apply andb_true_iff in Hc as [Hb _].
  unfold below in Hb. apply bool_decide_eq_true in Hb as [rest Hrest].
  cbn [snd]. unfold dest_of. rewrite Hrest.
  destruct rest as [|r rest]; [by left|right].
  change (Str.join "/" (["gallery_dl"] ++ r :: rest))
    with ("gallery_dl/" ++ Str.join "/" (r :: rest)).
  apply startswith_app.
Qed.

(** X12. Because the hook passes [include_py_files=True], a Python source
    file of the installed package is collected as a data file (here: as long
    as its name does not end in an extension suffix of the platform); with
    the default of the flag it would be excluded. *)
Theorem datas_keep_python_sources (s : Site) (m : Manifest) (f : InstalledFile) :
  is_package s "gallery_dl" = true →
  @hook (pyinstaller s) = Ok m →
  f ∈ installed s → below ["gallery_dl"] f = true →
  Str.endswith (file_name f) ".py" = true →
  endswith_any (file_name f) extension_suffixes = false →
  (source_of s f, dest_of f) ∈ datas m ∧
  excluded false ["gallery_dl"] f = true.
Proof.
  intros Hpkg E Hf Hb Hpy Hext.
  apply hook_binds in E as (a & b & c & d0 & _ & _ & _ & _ & _ & Ed).
  cbn in Ed. unfold PyInstaller.collect_data_files in Ed. rewrite Hpkg in Ed.
  cbn in Ed. inversion Ed as [Ed']. clear Ed. split.
  - apply list_elem_of_fmap. exists f. split; [done|].
    apply list_elem_of_filter. split; [|done].
    unfold collected, excluded, excluded_suffixes, in_pycache.
    rewrite Hb, Hext, (endswith_py_not_pyc _ Hpy).
    destruct (reverse (drop (length ["gallery_dl"]) (file_dir f))); [done|].
    by rewrite andb_false_r.
  - unfold excluded, excluded_suffixes, ALL_SUFFIXES, SOURCE_SUFFIXES, endswith_any.
    cbn [app existsb]. by rewrite Hpy.
Qed.

End HookExtras.

(** ** The depth of [os.makedirs] *)

Section Fuel.
Import Py.
Local Open Scope py_scope.

Lemma rpartition_length (c : ascii) (s h t : string) :
  Str.rpartition c s = (h, t) →
  (String.length h + String.length t = String.length s)%nat.
Proof.
  revert h t. induction s as [|a s IH]; intros h t; cbn [Str.rpartition].
  - intros E. by inversion E.
  - destruct (Str.rpartition c s) as [h0 t0]. specialize (IH _ _ eq_refl).
    destruct h0 as [|b h0]; [destruct (Ascii.eqb a c)|];
      intros E; inversion E; subst; cbn in *; lia.
Qed.

Lemma rstrip_length (c : ascii) (s : string) :
  (String.length (Str.rstrip c s) ≤ String.length s)%nat.
Proof.
  induction s as [|a s IH]; [done|]. cbn [Str.rstrip].
  destruct (Str.rstrip c s); [destruct (Ascii.eqb a c)|]; cbn in *; lia.
Qed.

Lemma split_length (p h t : string) :
  posixpath.split p = (h, t) →
  (String.length h + String.length t ≤ String.length p)%nat.
Proof.
  unfold posixpath.split.
  destruct (Str.rpartition posixpath.sep p) as [h0 t0] eqn:E.
  apply rpartition_length in E.
  destruct (negb (Str.is_empty h0) && negb (Str.all_char posixpath.sep h0));
    intros E'; inversion E'; subst; [|lia].
  pose proof (rstrip_length posixpath.sep h0). lia.
Qed.

Lemma mkdir_exist_ok_not_recursion (name : string) (w : World) :
  fst (mkdir_exist_ok name w) ≠ Raise RecursionError.
Proof.
  unfold mkdir_exist_ok, try_except, os_mkdir.
  repeat case_match; simplify_eq; done.
Qed.

(** Each nested call is on a shorter path: with more calls allowed than the
    path has characters, [makedirs_rec] stays within the limit. *)
Lemma makedirs_rec_fuel (depth : nat) :
  ∀ name w, (String.length name < depth)%nat →
            fst (makedirs_rec depth name w) ≠ Raise RecursionError.
Proof.
  induction depth as [|depth IH]; intros name w Hlen; [lia|].
  cbn [makedirs_rec].
  destruct (posixpath.split name) as [head tail] eqn:E1.
  apply split_length in E1.
  destruct (if Str.is_empty tail then posixpath.split head else (head, tail))
    as [head' tail'] eqn:E2.
  assert (tail' ≠ "" → (String.length head' < depth)%nat) as Hfuel.
  { intros Ht. destruct (Str.is_empty tail).
    - apply split_length in E2. destruct tail'; [done|]. cbn in *. lia.
    - inversion E2; subst. destruct tail'; [done|]. cbn in *. lia. }
  destruct (negb (Str.is_empty head') && negb (Str.is_empty tail')
            && negb (path_exists w head')) eqn:Hc;
    [|apply mkdir_exist_ok_not_recursion].
  assert (tail' ≠ "") as Ht.
  { intros ->. cbn in Hc. by rewrite andb_false_r in Hc. }
  specialize (IH head' w (Hfuel Ht)).
  unfold bind, try_except.
  destruct (makedirs_rec depth head' w) as [[[]|e] w1].
  - destruct (String.eqb tail' "."); [done|apply mkdir_exist_ok_not_recursion].
  - destruct (is_FileExistsError e) eqn:Ee.
    + unfold ret.
      destruct (String.eqb tail' "."); [done|apply mkdir_exist_ok_not_recursion].
    + cbn in *. done.
Qed.

(** [os.makedirs] stays within the recursion limit on a path that is not
    longer than the number of calls the interpreter has room for. *)
Lemma os_makedirs_depth (name : string) (w : World) :
  (String.length name ≤ recursion_room w)%nat →
  fst (os_makedirs name w) ≠ Raise RecursionError.
Proof. intros Hlen. unfold os_makedirs. apply makedirs_rec_fuel. lia. Qed.

End Fuel.

(** * The scripts on concrete hosts *)

Section Runs.
Import Py Scenario Hosts.

(** C2 on a bundle without the resource. *)
Lemma preload_missing_resource_witness :
  packaged_data w_missing "gallery_dl.extractor" "2ch.py" = Ok None ∧
  Shim.rthook w_missing = (Ok tt, w_missing).
Proof.
  split; [reflexivity|].
  apply (preload_missing_resource "gallery_dl.extractor.2ch" "2ch.py" w_missing).
  reflexivity.
Defined.

(** C8 on a bundle whose resource has no bytes. *)
Lemma preload_zero_bytes_witness :
  packaged_data w_zero_bytes "gallery_dl.extractor" "2ch.py" = Ok (Some []) ∧
  Shim.rthook w_zero_bytes = (Ok tt, w_zero_bytes).
Proof.
  split; [reflexivity|].
  apply (preload_zero_bytes "gallery_dl.extractor.2ch" "2ch.py" w_zero_bytes).
  reflexivity.
Defined.

(** C9 on a resource that does not compile: the run raises and the registry
    is as before. *)
Lemma registration_is_last_witness :
  fst (Shim.rthook w_syntax_error) = Raise (BodyError "SyntaxError: unmatched ')'") ∧
  sys_modules (snd (Shim.rthook w_syntax_error)) = sys_modules w_syntax_error.
Proof.
  split; [vm_compute; reflexivity|].
  apply (registration_is_last "gallery_dl.extractor.2ch" "2ch.py" w_syntax_error
           (snd (Shim.rthook w_syntax_error))
           (Raise (BodyError "SyntaxError: unmatched ')'"))).
  vm_compute. reflexivity.
Defined.

(** C4 on a full disk: the write fails and the shim fails with it. *)
Lemma preload_failures_propagate_witness :
  Shim.materialize "2ch.py" src_2ch w_disk_full
  = (Raise (NoSpaceError "/tmp/gallery_dl_pyinst_extractors/2ch.py"),
     snd (Shim.materialize "2ch.py" src_2ch w_disk_full)) ∧
  Shim.rthook w_disk_full
  = (Raise (NoSpaceError "/tmp/gallery_dl_pyinst_extractors/2ch.py"),
     snd (Shim.materialize "2ch.py" src_2ch w_disk_full)).
Proof.
  split; [vm_compute; reflexivity|].
  apply (proj1 (preload_failures_propagate "gallery_dl.extractor.2ch" "2ch.py"
                  w_disk_full src_2ch
                  (NoSpaceError "/tmp/gallery_dl_pyinst_extractors/2ch.py")
                  ltac:(reflexivity) ltac:(discriminate))).
  vm_compute. reflexivity.
Defined.

(** C10 for the path of the script. *)
Lemma spec_for_py_has_loader_witness :
  Str.endswith "2ch.py" ".py" = true ∧
  ∃ s l,
    spec_from_file_location "gallery_dl.extractor.2ch"
      "/tmp/gallery_dl_pyinst_extractors/2ch.py" w_found = (Ok (Some s), w_found) ∧
    spec_loader s = Some l ∧
    Shim.load "gallery_dl.extractor.2ch" "/tmp/gallery_dl_pyinst_extractors/2ch.py" w_found
    = bind (module_from_spec (Some s)) (exec_module l) w_found.
Proof.
  split; [reflexivity|].
  exact (spec_for_py_has_loader "gallery_dl.extractor.2ch" "2ch.py" "/tmp" w_found
           ltac:(reflexivity)).
Defined.

(** C1, as amended, on a bundle that holds the resource. *)
Lemma preload_registers_resource_witness :
  Shim.rthook w_found = (Ok tt, snd (Shim.rthook w_found)) ∧
  ∃ m, sys_modules (snd (Shim.rthook w_found)) !! "gallery_dl.extractor.2ch" = Some m ∧
       mod_name m = "gallery_dl.extractor.2ch" ∧ mod_code m = Some src_2ch ∧
       files (snd (Shim.rthook w_found)) !! Shim.dst_of w_found "2ch.py" = Some src_2ch.
Proof.
  split; [vm_compute; reflexivity|].
  apply (preload_registers_resource "gallery_dl.extractor.2ch" "2ch.py" w_found
           (snd (Shim.rthook w_found)) src_2ch).
  - reflexivity.
  - discriminate.
  - intros body E. vm_compute in E. discriminate E.
  - vm_compute. reflexivity.
Defined.

(** C1 as stated fails twice.  On a bundle whose resource has no bytes the
    resource is there, the shim returns, and the target name is not
    registered.  On a machine where an earlier run left its file and the
    bytecode cache of it, the shim writes the resource of this bundle to
    the file, and the module it registers has executed the code of the
    cache: the content of the earlier bundle. *)
Lemma preload_registers_other_content :
  (packaged_data w_zero_bytes "gallery_dl.extractor" "2ch.py" = Ok (Some []) ∧
   fst (Shim.rthook w_zero_bytes) = Ok tt ∧
   sys_modules (snd (Shim.rthook w_zero_bytes)) !! "gallery_dl.extractor.2ch" = None) ∧
  (packaged_data w_stale "gallery_dl.extractor" "2ch.py" = Ok (Some src_2ch) ∧
   fst (Shim.rthook w_stale) = Ok tt ∧
   files (snd (Shim.rthook w_stale)) !! shim_file = Some src_2ch ∧
   mod_code <$> sys_modules (snd (Shim.rthook w_stale)) !! "gallery_dl.extractor.2ch"
   = Some (Some src_old) ∧
   src_old ≠ src_2ch).
Proof.
  split; [repeat split; vm_compute; reflexivity|].
  split; [reflexivity|]. split; [vm_compute; reflexivity|].
  split; [vm_compute; reflexivity|]. split; [vm_compute; reflexivity|].
  discriminate.
Qed.



(** C3, as amended, on the machine with gallery-dl. *)
Lemma hiddenimports_exact_witness :
  PyInstaller.wf_site site_installed = true ∧
  ∃ m, @Hook.hook (Hook.pyinstaller site_installed) = Ok m ∧
    Hook.hiddenimports m =
      (PyInstaller.submodules site_installed "gallery_dl.extractor" ++
       PyInstaller.submodules site_installed "gallery_dl.downloader" ++
       PyInstaller.submodules site_installed "gallery_dl.postprocessor" ++
       PyInstaller.submodules site_installed "gallery_dl.output")%list ∧
    (∀ p x, p ∈ Hook.plugin_packages →
       x ∈ PyInstaller.submodules site_installed p ↔ PyInstaller.Present site_installed p x) ∧
    (∀ x, x ∈ Hook.hiddenimports m ↔
          ∃ p, p ∈ Hook.plugin_packages ∧ PyInstaller.Present site_installed p x).
Proof.
  split; [vm_compute; reflexivity|].
  apply (hiddenimports_exact site_installed).
  vm_compute. reflexivity.
Defined.

(** C3 as stated fails on a machine where one extractor cannot be imported:
    the hook lists it all the same. *)
Lemma hiddenimports_lists_unimportable :
  Hook.hiddenimports <$>
    (match @Hook.hook (Hook.pyinstaller site_broken) with Ok m => Some m | Raise _ => None end)
  = Some [ "gallery_dl.extractor"; "gallery_dl.extractor.broken";
           "gallery_dl.extractor.common" ] ∧
  PyInstaller.can_import_module site_broken "gallery_dl.extractor.broken" = false.
Proof. split; vm_compute; reflexivity. Qed.

(** C6, as amended, on the machine with gallery-dl. *)
Lemma datas_collects_package_files_witness :
  PyInstaller.is_package site_installed "gallery_dl" = true ∧
  @Hook.hook (Hook.pyinstaller site_installed) = Ok manifest_installed ∧
  (∀ d, d ∈ Hook.datas manifest_installed ↔
        ∃ f, f ∈ PyInstaller.installed site_installed ∧
             PyInstaller.below ["gallery_dl"] f = true ∧
             PyInstaller.excluded true ["gallery_dl"] f = false ∧
             d = (PyInstaller.source_of site_installed f, PyInstaller.dest_of f)) ∧
  (∀ f, f ∈ PyInstaller.installed site_installed →
        PyInstaller.below ["gallery_dl"] f = true → PyInstaller.well_formed f →
        PyInstaller.source_of site_installed f
        = PyInstaller.site_dir site_installed ++ "/" ++ PyInstaller.relative_path f ∧
        PyInstaller.bundled_at (PyInstaller.source_of site_installed f, PyInstaller.dest_of f)
        = PyInstaller.relative_path f).
Proof.
  split; [reflexivity|]. split; [vm_compute; reflexivity|].
  apply (datas_collects_package_files site_installed manifest_installed).
  - reflexivity.
  - vm_compute. reflexivity.
Defined.

(** C6 as stated fails on that machine: the bytecode cache of [2ch.py] is a
    file of the installed package, and no pair of [datas] has it as source. *)
Lemma datas_skip_bytecode_cache :
  In cache_2ch (PyInstaller.installed site_installed) ∧
  PyInstaller.below ["gallery_dl"] cache_2ch = true ∧
  @Hook.hook (Hook.pyinstaller site_installed) = Ok manifest_installed ∧
  existsb (fun d => String.eqb (fst d) (PyInstaller.source_of site_installed cache_2ch))
          (Hook.datas manifest_installed) = false.
Proof.
  split; [do 4 right; left; reflexivity|].
  repeat split; vm_compute; reflexivity.
Qed.

(** C7 as stated fails on a machine without gallery-dl: the package cannot
    be located, the hook evaluates and both manifests are empty. *)
Lemma hook_silent_without_library :
  PyInstaller.locate site_without "gallery_dl" = None ∧
  @Hook.hook (Hook.pyinstaller site_without)
  = Ok {| Hook.hiddenimports := []; Hook.datas := [] |}.
Proof. split; vm_compute; reflexivity. Qed.

(** C7, as amended, on a machine where gallery-dl is installed and its
    import fails. *)
Lemma hook_silent_on_missing_library_witness :
  ∃ m, @Hook.hook (Hook.pyinstaller site_unimportable) = Ok m ∧
       Hook.hiddenimports m = [] ∧
       ((∀ e, e ∈ PyInstaller.toplevel site_unimportable →
              PyInstaller.entry_name e ≠ "gallery_dl") → Hook.datas m = []).
Proof.
  apply (hook_silent_on_missing_library site_unimportable).
  intros e He _. apply list_elem_of_singleton in He. rewrite He. reflexivity.
Defined.

End Runs.

(** ** Further runs *)

Section MoreRuns.
Import Py Scenario Hosts.

(** X2 on a resource whose code raises when it runs: the source was
    compiled and its bytecode cache written before the failure. *)
Lemma failed_load_leaves_file_witness :
  Shim.rthook w_body_raises
  = (Raise (BodyError "ZeroDivisionError: division by zero"),
     snd (Shim.load "gallery_dl.extractor.2ch" shim_file
            (snd (Shim.materialize "2ch.py" src_div w_body_raises)))) ∧
  files (snd (Shim.materialize "2ch.py" src_div w_body_raises)) !! shim_file
  = Some src_div ∧
  sys_modules (snd (Shim.materialize "2ch.py" src_div w_body_raises))
  = sys_modules w_body_raises ∧
  files (snd (Shim.load "gallery_dl.extractor.2ch" shim_file
                (snd (Shim.materialize "2ch.py" src_div w_body_raises)))) !! shim_file
  = Some src_div ∧
  sys_modules (snd (Shim.load "gallery_dl.extractor.2ch" shim_file
                      (snd (Shim.materialize "2ch.py" src_div w_body_raises))))
  = sys_modules w_body_raises.
Proof.
  apply (failed_load_leaves_file "gallery_dl.extractor.2ch" "2ch.py" shim_file
           w_body_raises
           (snd (Shim.materialize "2ch.py" src_div w_body_raises))
           (snd (Shim.load "gallery_dl.extractor.2ch" shim_file
                   (snd (Shim.materialize "2ch.py" src_div w_body_raises))))
           src_div (BodyError "ZeroDivisionError: division by zero")).
  - reflexivity.
  - discriminate.
  - vm_compute. reflexivity.
  - vm_compute. reflexivity.
Defined.

(** The failed load of that run left the bytecode cache of the file. *)
Example failed_load_leaves_cache :
  pyc_body <$>
    cached shim_file
      (snd (Shim.load "gallery_dl.extractor.2ch" shim_file
              (snd (Shim.materialize "2ch.py" src_div w_body_raises))))
  = Some (Ok src_div) ∧
  cached shim_file (snd (Shim.materialize "2ch.py" src_div w_body_raises)) = None.
Proof. split; vm_compute; reflexivity. Qed.

(** X4 on a rooted resource name: the file is written outside the temporary
    directory. *)
Lemma preload_file_location_witness :
  Shim._preload_extractor "gallery_dl.extractor.2ch" "/2ch.py" w_rooted
  = (Ok tt, snd (Shim._preload_extractor "gallery_dl.extractor.2ch" "/2ch.py" w_rooted)) ∧
  files (snd (Shim._preload_extractor "gallery_dl.extractor.2ch" "/2ch.py" w_rooted))
    !! Shim.dst_of w_rooted "/2ch.py" = Some src_2ch ∧
  Shim.dst_of w_rooted "/2ch.py" = "/2ch.py".
Proof.
  split; [vm_compute; reflexivity|].
  apply (preload_file_location "gallery_dl.extractor.2ch" "/2ch.py" w_rooted
           (snd (Shim._preload_extractor "gallery_dl.extractor.2ch" "/2ch.py" w_rooted))
           src_2ch).
  - reflexivity.
  - discriminate.
  - vm_compute. reflexivity.
Defined.

(** X5 on a resource name with directories in it. *)
Lemma preload_directories_witness :
  Shim._preload_extractor "gallery_dl.extractor.2ch" "sub/dir/2ch.py" w_nested
  = (Ok tt,
     snd (Shim._preload_extractor "gallery_dl.extractor.2ch" "sub/dir/2ch.py" w_nested)) ∧
  isdir (snd (Shim._preload_extractor "gallery_dl.extractor.2ch" "sub/dir/2ch.py" w_nested))
    "/tmp/gallery_dl_pyinst_extractors" = true ∧
  parent_isdir
    (snd (Shim._preload_extractor "gallery_dl.extractor.2ch" "sub/dir/2ch.py" w_nested))
    (Shim.dst_of w_nested "sub/dir/2ch.py") = true.
Proof.
  split; [vm_compute; reflexivity|].
  apply (preload_directories "gallery_dl.extractor.2ch" "sub/dir/2ch.py" w_nested
           (snd (Shim._preload_extractor "gallery_dl.extractor.2ch" "sub/dir/2ch.py"
                   w_nested))
           src_2ch).
  - reflexivity.
  - discriminate.
  - vm_compute. reflexivity.
Defined.

(** X6 on the run that registers the module. *)
Lemma preload_module_origin_witness :
  Shim.rthook w_found = (Ok tt, snd (Shim.rthook w_found)) ∧
  ∃ m l, sys_modules (snd (Shim.rthook w_found)) !! "gallery_dl.extractor.2ch" = Some m ∧
         mod_file m = abs_location w_found (Shim.dst_of w_found "2ch.py") ∧
         mod_loader m = Some l ∧ loader_name l = "gallery_dl.extractor.2ch" ∧
         loader_path l = mod_file m ∧
         pick_loader (mod_file m) _get_supported_file_loaders = Some (loader_kind l) ∧
         (posixpath.isabs (tempdir w_found) = true →
          mod_file m = Shim.dst_of w_found "2ch.py").
Proof.
  split; [vm_compute; reflexivity|].
  apply (preload_module_origin "gallery_dl.extractor.2ch" "2ch.py" w_found
           (snd (Shim.rthook w_found)) src_2ch).
  - reflexivity.
  - discriminate.
  - vm_compute. reflexivity.
Defined.


(** X11 on the machine with gallery-dl. *)
Lemma datas_stay_in_package_witness :
  @Hook.hook (Hook.pyinstaller site_installed) = Ok manifest_installed ∧
  (snd ("/venv/lib/python3.11/site-packages/gallery_dl/extractor/2ch.py",
        "gallery_dl/extractor") = "gallery_dl" ∨
   Str.startswith
     (snd ("/venv/lib/python3.11/site-packages/gallery_dl/extractor/2ch.py",
           "gallery_dl/extractor")) "gallery_dl/" = true).
Proof.
  split; [vm_compute; reflexivity|].
  apply (datas_stay_in_package site_installed manifest_installed).
  - vm_compute. reflexivity.
  - do 3 apply list_elem_of_further. apply list_elem_of_here.
Defined.

(** X12 on the source of the extractor the runtime hook loads. *)
Lemma datas_keep_python_sources_witness :
  (PyInstaller.source_of site_installed (file ["gallery_dl"; "extractor"] "2ch.py" "import re"),
   PyInstaller.dest_of (file ["gallery_dl"; "extractor"] "2ch.py" "import re"))
    ∈ Hook.datas manifest_installed ∧
  PyInstaller.excluded false ["gallery_dl"]
    (file ["gallery_dl"; "extractor"] "2ch.py" "import re") = true.
Proof.
  apply (datas_keep_python_sources site_installed manifest_installed
           (file ["gallery_dl"; "extractor"] "2ch.py" "import re")).
  - reflexivity.
  - vm_compute. reflexivity.
  - do 3 apply list_elem_of_further. apply list_elem_of_here.
  - vm_compute. reflexivity.
  - reflexivity.
  - vm_compute. reflexivity.
Defined.


(** A resource that is no module file: no loader handles the file that was
    written, and the load step fails on the missing specification. *)
Example preload_text_resource :
  fst (Shim._preload_extractor "notes" "notes.txt" w_text)
  = Raise (AttributeError "'NoneType' object has no attribute 'loader'") ∧
  is_Some (files (snd (Shim._preload_extractor "notes" "notes.txt" w_text))
             !! "/tmp/gallery_dl_pyinst_extractors/notes.txt").
Proof. split; [vm_compute; reflexivity|]. vm_compute. by eexists. Qed.

End MoreRuns.
